(** * S3 to GCS replication service (app.py): model and verified properties

    A shallow embedding of [ReplicationService] from [app.py].  Python
    exceptions become an explicit [outcome]; the remote stores, the clock and
    [time.sleep] are the operations of a [Clients] interface over an abstract
    world state; every remote call leaves an entry in a trace, so that
    "how often was this called" and "was the stream closed" are statements
    about lists.  The [logger] calls are left out: they decide nothing.  The
    Flask routes around the service are not modelled. *)

From Stdlib Require Import ZArith Lia Ascii String.
From stdpp Require Import gmap strings list.

Local Open Scope Z_scope.

(** ** Python values the service handles *)

(** The exception classes [app.py] distinguishes in its [except] clauses.
    A constructor stands for the class and its subclasses, as [except] does.
    Only subclasses of [Exception] occur: that is what the client libraries
    raise. *)
Inductive exn : Type :=
  | ClientError (code message : string)      (* botocore: e.response['Error']['Code'] *)
  | BotoCoreError (message : string)
  | GoogleAPIError (message : string)
  | FileNotFoundError (message : string)
  | ValueError (message : string)
  | TypeError (message : string)
  | OtherException (class message : string).

(** How a call ends: it returns a value or raises. *)
Inductive outcome (A : Type) : Type :=
  | Return (a : A)
  | Raise (e : exn).
Arguments Return {A} a.
Arguments Raise {A} e.

(** The handle of an open [StreamingBody]. *)
Definition StreamingBody : Type := nat.

(** The response of [head_object]; the code reads it with [.get], so every
    field may be missing. *)
Record HeadObjectOutput : Type := {
  ETag : option string;
  ContentLength : option Z;
  LastModified : option string
}.

(** The response of [get_object]. *)
Record GetObjectOutput : Type := {
  Body : StreamingBody;
  ContentType : option string
}.

(** The dict built by [_get_s3_metadata]. *)
Record S3Metadata : Type := {
  etag : string;
  size : Z;
  last_modified : option string
}.

(** The two dicts [replicate] returns, by their ['status']. *)
Inductive ReplicationResult : Type :=
  | Skipped (message gcs_path : string)
  | Succeeded (message s3_path gcs_path : string) (size_bytes : Z).

Definition status (r : ReplicationResult) : string :=
  match r with
  | Skipped _ _ => "skipped"
  | Succeeded _ _ _ _ => "success"
  end.

(** [result['status']] of a run, if it returned. *)
Definition status_of_run {E Ev} (r : outcome ReplicationResult * E * list Ev)
  : option string :=
  match r.1.1 with
  | Return result => Some (status result)
  | Raise _ => None
  end.

(** ** The collaborators

    [boto3] and [google.cloud.storage] are not part of the repository: the
    service is modelled over any implementation of the calls it makes. *)
Class Clients (E : Type) : Type := {
  head_object : string -> string -> E -> outcome HeadObjectOutput * E;
  get_object : string -> string -> E -> outcome GetObjectOutput * E;
  body_close : StreamingBody -> E -> E;
  blob_exists : string -> E -> outcome bool * E;
  (* blob.reload() followed by reading blob.metadata *)
  blob_reload : string -> E -> outcome (option (gmap string string)) * E;
  (* blob.upload_from_file(stream, content_type=, timeout=), with the
     blob's key and the metadata set on the blob object *)
  blob_upload_from_file :
    string -> gmap string string -> StreamingBody -> string -> Z ->
    E -> outcome unit * E;
  time_strftime : E -> string;
  time_sleep : Z -> E -> E
}.

(** Remote calls, as they appear in a trace. [BodyOpened] records that
    [get_object] handed out a stream. *)
Inductive call : Type :=
  | HeadObject (bucket key : string)
  | GetObject (bucket key : string)
  | BodyOpened (body : StreamingBody)
  | BodyClose (body : StreamingBody)
  | BlobExists (gcs_key : string)
  | BlobReload (gcs_key : string)
  | UploadFromFile (gcs_key : string) (metadata : gmap string string)
      (body : StreamingBody) (content_type : string) (timeout : Z).

(** What the retry wrapper adds: [Attempt n] marks the call [func(...)] of
    loop iteration [n], [Sleep w] is [time.sleep(w)]. *)
Inductive event : Type :=
  | Attempt (attempt : Z)
  | Sleep (wait_time : Z)
  | Call (c : call).

(** ** A state, exception and trace monad *)

Definition M (E Ev A : Type) : Type := E -> outcome A * E * list Ev.

Definition ret {E Ev A} (a : A) : M E Ev A := fun s => (Return a, s, []).

Definition raise {E Ev A} (e : exn) : M E Ev A := fun s => (Raise e, s, []).

Definition bind {E Ev A B} (m : M E Ev A) (k : A -> M E Ev B) : M E Ev B :=
  fun s =>
    match m s with
    | (Return a, s1, t1) => let '(r, s2, t2) := k a s1 in (r, s2, t1 ++ t2)
    | (Raise e, s1, t1) => (Raise e, s1, t1)
    end.

(** [try: m except ... as e: h e]; a handler re-raises what it does not
    handle. *)
Definition try_except {E Ev A} (m : M E Ev A) (h : exn -> M E Ev A) : M E Ev A :=
  fun s =>
    match m s with
    | (Return a, s1, t1) => (Return a, s1, t1)
    | (Raise e, s1, t1) => let '(r, s2, t2) := h e s1 in (r, s2, t1 ++ t2)
    end.

(** One remote call, recorded. *)
Definition remote {E A} (c : call) (f : E -> outcome A * E) : M E call A :=
  fun s => let '(r, s1) := f s in (r, s1, [c]).

Definition tell {E Ev} (ev : Ev) : M E Ev unit := fun s => (Return tt, s, [ev]).

(** An operation run inside the service: its calls become [Call] events. *)
Definition lift {E A} (m : M E call A) : M E event A :=
  fun s => let '(r, s1, t1) := m s in (r, s1, Call <$> t1).

Declare Scope py_scope.
Delimit Scope py_scope with py.
Notation "x <- m ;; k" := (bind m (fun x => k))
  (at level 100, m at next level, right associativity) : py_scope.
Notation "m ;;; k" := (bind m (fun _ => k))
  (at level 100, right associativity) : py_scope.
Local Open Scope py_scope.

Definition outcome_of {E Ev A} (r : outcome A * E * list Ev) : outcome A := r.1.1.
Definition state_of {E Ev A} (r : outcome A * E * list Ev) : E := r.1.2.
Definition trace_of {E Ev A} (r : outcome A * E * list Ev) : list Ev := r.2.

(** ** Strings *)

(** [s.lstrip(c)], [s.rstrip(c)] and [s.strip(c)] for a single character. *)
Fixpoint lstrip (c : ascii) (s : string) : string :=
  match s with
  | String a s' => if Ascii.eqb a c then lstrip c s' else s
  | EmptyString => EmptyString
  end.

Definition rstrip (c : ascii) (s : string) : string :=
  String.rev (lstrip c (String.rev s)).

Definition strip (c : ascii) (s : string) : string := rstrip c (lstrip c s).

Definition dquote : ascii := "034"%char.

(** [range(n)] *)
Definition range (n : Z) : list Z := Z.of_nat <$> seq 0 (Z.to_nat n).

(** ** ReplicationService *)

Section ReplicationService.

Context {E : Type} `{Clients E}.

(** Module-level configuration read from the environment. *)
Variable MAX_RETRIES : Z.
Variable GCS_BUCKET_NAME : string.

Definition _get_s3_metadata (bucket key : string) : M E call S3Metadata :=
  try_except
    (response <- remote (HeadObject bucket key) (head_object bucket key);;
     ret {| etag := strip dquote (default "" (ETag response));
            size := default 0 (ContentLength response);
            last_modified := LastModified response |})
    (fun e =>
       match e with
       | ClientError code _ =>
           if String.eqb code "404"
           then raise (FileNotFoundError
                         ("S3 object not found: s3://" +:+ bucket +:+ "/" +:+ key))
           else raise e
       | _ => raise e
       end).

(** [blob.metadata.get('s3_etag') if blob.metadata else None]: an empty
    dict is falsy. *)
Definition stored_etag_of (metadata : option (gmap string string)) : option string :=
  match metadata with
  | Some m => if bool_decide (m = ∅) then None else m !! "s3_etag"
  | None => None
  end.

(** [stored_etag == s3_etag], the left side possibly [None]. *)
Definition etag_eq (stored_etag : option string) (s3_etag : string) : bool :=
  match stored_etag with
  | Some t => String.eqb t s3_etag
  | None => false
  end.

Definition _check_gcs_exists (gcs_key s3_etag : string) : M E call bool :=
  try_except
    (blob_present <- remote (BlobExists gcs_key) (blob_exists gcs_key);;
     if blob_present : bool then
       metadata <- remote (BlobReload gcs_key) (blob_reload gcs_key);;
       let stored_etag := stored_etag_of metadata in
       if etag_eq stored_etag s3_etag then ret true else ret false
     else ret false)
    (fun _ => ret false).

(** [time.sleep(secs)] *)
Definition sleep (secs : Z) : M E event unit :=
  fun s => (Return tt, time_sleep secs s, [Sleep secs]).

(** [time.strftime('%Y-%m-%d %H:%M:%S')]: reading the clock is no remote
    call. *)
Definition strftime : M E call string :=
  fun s => (Return (time_strftime s), s, []).

(** The classes named in the wrapper's [except] clause. *)
Definition retryable (e : exn) : bool :=
  match e with
  | ClientError _ _ | BotoCoreError _ | GoogleAPIError _ => true
  | _ => false
  end.

(** The [for attempt in ...] loop of [_retry_with_backoff], over the
    attempts still to make; falling out of the loop returns [None]. *)
Fixpoint retry_loop {A} (func : M E call A) (attempts : list Z)
  : M E event (option A) :=
  match attempts with
  | [] => ret None
  | attempt :: rest =>
      try_except
        (tell (Attempt attempt);;;
         a <- lift func;;
         ret (Some a))
        (fun e =>
           if retryable e then
             if attempt =? MAX_RETRIES - 1 then raise e
             else
               let wait_time := 2 ^ attempt in
               sleep wait_time;;;
               retry_loop func rest
           else raise e)
  end.

Definition _retry_with_backoff {A} (func : M E call A) : M E event (option A) :=
  retry_loop func (range MAX_RETRIES).

(** [with body as s3_stream: m]: the body is closed however [m] ends. *)
Definition with_body {A} (body : StreamingBody) (m : M E call A) : M E call A :=
  fun s =>
    let '(r, s1, t1) := m s in
    (r, body_close body s1, t1 ++ [BodyClose body]).

Definition provenance (s3_bucket s3_key : string) (s3_metadata : S3Metadata)
    (replicated_at : string) : gmap string string :=
  <["s3_etag" := etag s3_metadata]>
    (<["s3_bucket" := s3_bucket]>
       (<["s3_key" := s3_key]>
          (<["replicated_at" := replicated_at]> ∅))).

Definition _stream_upload (s3_bucket s3_key gcs_key : string)
    (s3_metadata : S3Metadata) : M E call bool :=
  try_except
    (s3_response <- remote (GetObject s3_bucket s3_key) (get_object s3_bucket s3_key);;
     tell (BodyOpened (Body s3_response));;;
     replicated_at <- strftime;;
     let metadata := provenance s3_bucket s3_key s3_metadata replicated_at in
     with_body (Body s3_response)
       (remote
          (UploadFromFile gcs_key metadata (Body s3_response)
             (default "application/octet-stream" (ContentType s3_response)) 300)
          (blob_upload_from_file gcs_key metadata (Body s3_response)
             (default "application/octet-stream" (ContentType s3_response)) 300));;;
     ret true)
    (fun e => raise e).

(** The destination key of line 154. *)
Definition gcs_key_of (s3_bucket s3_key : string) : string :=
  s3_bucket +:+ "/" +:+ s3_key.

Definition replicate (s3_bucket s3_key : string) : M E event ReplicationResult :=
  try_except
    (s3_metadata <- _retry_with_backoff (_get_s3_metadata s3_bucket s3_key);;
     match s3_metadata with
     | None =>
         (* s3_metadata['size'] on None *)
         raise (TypeError "'NoneType' object is not subscriptable")
     | Some s3_metadata =>
         let gcs_key := gcs_key_of s3_bucket s3_key in
         skip <- lift (_check_gcs_exists gcs_key (etag s3_metadata));;
         if skip : bool then
           ret (Skipped "File already exists with same content"
                  ("gs://" +:+ GCS_BUCKET_NAME +:+ "/" +:+ gcs_key))
         else
           _retry_with_backoff
             (_stream_upload s3_bucket s3_key gcs_key s3_metadata);;;
           ret (Succeeded "File replicated successfully"
                  ("s3://" +:+ s3_bucket +:+ "/" +:+ s3_key)
                  ("gs://" +:+ GCS_BUCKET_NAME +:+ "/" +:+ gcs_key)
                  (size s3_metadata))
     end)
    (fun e =>
       match e with
       | FileNotFoundError message => raise (ValueError message)
       | _ => raise e
       end).

End ReplicationService.

(** ** An in-memory source and destination

    A small implementation of [Clients], used to run the service on
    concrete inputs: two stores, and a script of failures for the next
    remote calls ([None]: the call goes through). *)
Module Sim.

Record S3Object : Type := {
  s3_etag : string;                 (* as S3 reports it, in double quotes *)
  s3_size : Z;
  s3_modified : string;
  s3_content_type : option string
}.

Record Blob : Type := {
  metadata : option (gmap string string);
  content_type : string
}.

Record world : Type := {
  s3 : gmap (string * string) S3Object;
  gcs : gmap string Blob;
  faults : list (option exn);
  open_bodies : list StreamingBody;
  next_body : nat;
  now : string;
  slept : Z
}.

Definition set_faults (f : list (option exn)) (w : world) : world :=
  {| s3 := s3 w; gcs := gcs w; faults := f; open_bodies := open_bodies w;
     next_body := next_body w; now := now w; slept := slept w |}.

(** Every remote call first consumes one entry of the script. *)
Definition faulty {A} (f : world -> outcome A * world) (w : world)
  : outcome A * world :=
  match faults w with
  | Some e :: rest => (Raise e, set_faults rest w)
  | None :: rest => f (set_faults rest w)
  | [] => f w
  end.

Definition sim_head_object (bucket key : string) : world -> outcome HeadObjectOutput * world :=
  faulty (fun w =>
    match s3 w !! (bucket, key) with
    | Some o =>
        (Return {| ETag := Some (s3_etag o);
                   ContentLength := Some (s3_size o);
                   LastModified := Some (s3_modified o) |}, w)
    | None => (Raise (ClientError "404" "Not Found"), w)
    end).

Definition sim_get_object (bucket key : string) : world -> outcome GetObjectOutput * world :=
  faulty (fun w =>
    match s3 w !! (bucket, key) with
    | Some o =>
        (Return {| Body := next_body w; ContentType := s3_content_type o |},
         {| s3 := s3 w; gcs := gcs w; faults := faults w;
            open_bodies := next_body w :: open_bodies w;
            next_body := S (next_body w); now := now w; slept := slept w |})
    | None => (Raise (ClientError "NoSuchKey" "The specified key does not exist."), w)
    end).

Definition sim_body_close (body : StreamingBody) (w : world) : world :=
  {| s3 := s3 w; gcs := gcs w; faults := faults w;
     open_bodies := filter (fun b => b ≠ body) (open_bodies w);
     next_body := next_body w; now := now w; slept := slept w |}.

Definition sim_blob_exists (gcs_key : string) : world -> outcome bool * world :=
  faulty (fun w => (Return (bool_decide (is_Some (gcs w !! gcs_key))), w)).

Definition sim_blob_reload (gcs_key : string)
  : world -> outcome (option (gmap string string)) * world :=
  faulty (fun w =>
    match gcs w !! gcs_key with
    | Some b => (Return (metadata b), w)
    | None => (Raise (GoogleAPIError "404 No such object"), w)
    end).

Definition sim_blob_upload_from_file (gcs_key : string) (md : gmap string string)
    (body : StreamingBody) (ct : string) (timeout : Z)
  : world -> outcome unit * world :=
  faulty (fun w =>
    (Return tt,
     {| s3 := s3 w;
        gcs := <[gcs_key := {| metadata := Some md; content_type := ct |}]> (gcs w);
        faults := faults w; open_bodies := open_bodies w;
        next_body := next_body w; now := now w; slept := slept w |})).

Definition sim_time_sleep (secs : Z) (w : world) : world :=
  {| s3 := s3 w; gcs := gcs w; faults := faults w; open_bodies := open_bodies w;
     next_body := next_body w; now := now w; slept := slept w + secs |}.

#[global] Instance sim_clients : Clients world := {
  head_object := sim_head_object;
  get_object := sim_get_object;
  body_close := sim_body_close;
  blob_exists := sim_blob_exists;
  blob_reload := sim_blob_reload;
  blob_upload_from_file := sim_blob_upload_from_file;
  time_strftime := now;
  time_sleep := sim_time_sleep
}.

(** The example of the specification: one object in bucket [raw-logs],
    nothing at the destination, no failures. *)
Definition quoted (s : string) : string := String dquote s +:+ String dquote "".

Definition raw_logs : world :=
  {| s3 := {[ ("raw-logs", "2024/01/01.log") :=
               {| s3_etag := quoted "abc123"; s3_size := 4096;
                  s3_modified := "2024-01-01 00:00:00";
                  s3_content_type := Some "text/plain" |} ]};
     gcs := ∅; faults := []; open_bodies := []; next_body := 0%nat;
     now := "2024-01-02 03:04:05"; slept := 0 |}.

(** What the inspection of that object yields. *)
Definition raw_logs_metadata : S3Metadata :=
  {| etag := "abc123"; size := 4096;
     last_modified := Some "2024-01-01 00:00:00" |}.

(** The same stores, the next three remote calls being refused. *)
Definition forbidden : exn := ClientError "403" "Forbidden".

Definition forbidden_thrice : world :=
  set_faults [Some forbidden; Some forbidden; Some forbidden] raw_logs.

(** The stores after one replication of the object, three attempts being
    configured. *)
Definition replicated_once : world :=
  state_of (replicate 3 "dest" "raw-logs" "2024/01/01.log" raw_logs).

End Sim.

(** ** Stores that are down

    Every remote call raises the retryable error of an unavailable
    service; the state counts the calls received. *)
Module Outage.

Definition unavailable : exn := ClientError "503" "Service Unavailable".

Definition gcs_unavailable : exn := GoogleAPIError "503 Service Unavailable".

#[global] Instance outage_clients : Clients nat := {
  head_object := fun _ _ n => (Raise unavailable, S n);
  get_object := fun _ _ n => (Raise unavailable, S n);
  body_close := fun _ n => n;
  blob_exists := fun _ n => (Raise gcs_unavailable, S n);
  blob_reload := fun _ n => (Raise gcs_unavailable, S n);
  blob_upload_from_file := fun _ _ _ _ _ n => (Raise gcs_unavailable, S n);
  time_strftime := fun _ => "2024-01-02 03:04:05";
  time_sleep := fun _ n => n
}.

End Outage.

(** ** Reading traces and runs *)

(** The wrapper's own events, without the remote calls in between. *)
Fixpoint schedule (tr : list event) : list event :=
  match tr with
  | [] => []
  | Call _ :: rest => schedule rest
  | ev :: rest => ev :: schedule rest
  end.

(** The remote calls of a service run. *)
Fixpoint calls (tr : list event) : list call :=
  match tr with
  | [] => []
  | Call c :: rest => c :: calls rest
  | _ :: rest => calls rest
  end.

(** How often the wrapped operation was invoked. *)
Fixpoint attempts_made (tr : list event) : nat :=
  match tr with
  | [] => 0
  | Attempt _ :: rest => S (attempts_made rest)
  | _ :: rest => attempts_made rest
  end.

(** The waits, in order. *)
Fixpoint sleeps (tr : list event) : list Z :=
  match tr with
  | [] => []
  | Sleep w :: rest => w :: sleeps rest
  | _ :: rest => sleeps rest
  end.

(** Attempts separated by waits of two to the attempt's index:
    [Attempt 0; Sleep 1; Attempt 1; Sleep 2; Attempt 2] for three attempts. *)
Fixpoint backoff_schedule (attempts : list Z) : list event :=
  match attempts with
  | [] => []
  | attempt :: rest =>
      match rest with
      | [] => [Attempt attempt]
      | _ :: _ => Attempt attempt :: Sleep (2 ^ attempt) :: backoff_schedule rest
      end
  end.

Definition is_transfer (c : call) : bool :=
  match c with
  | GetObject _ _ | BodyOpened _ | BodyClose _ | UploadFromFile _ _ _ _ _ => true
  | _ => false
  end.

(** The calls of the stream-transfer step found in a trace. *)
Definition transfer_calls (tr : list event) : list call :=
  List.filter is_transfer (calls tr).

Definition is_head_object (c : call) : bool :=
  match c with HeadObject _ _ => true | _ => false end.

(** The source inspections found in a trace. *)
Definition inspections (tr : list event) : list call :=
  List.filter is_head_object (calls tr).

(** The streams open once the calls of [tr] are done, [held] being open
    before. *)
Fixpoint open_after (tr : list call) (held : list StreamingBody)
  : list StreamingBody :=
  match tr with
  | [] => held
  | BodyOpened b :: rest => open_after rest (b :: held)
  | BodyClose b :: rest => open_after rest (List.filter (fun x => negb (Nat.eqb x b)) held)
  | _ :: rest => open_after rest held
  end.

(** The streams closed in a trace, in order. *)
Fixpoint bodies_closed (tr : list call) : list StreamingBody :=
  match tr with
  | [] => []
  | BodyClose b :: rest => b :: bodies_closed rest
  | _ :: rest => bodies_closed rest
  end.

(** The state in which attempt [first + n] starts when the wrapper, at
    attempt [first] in state [s], sees [n] attempts fail and waits after
    each. *)
Fixpoint state_before_attempt {E} `{Clients E} {A} (func : M E call A)
    (first n : nat) (s : E) : E :=
  match n with
  | O => s
  | S n' =>
      state_before_attempt func (S first) n'
        (time_sleep (2 ^ Z.of_nat first) (state_of (func s)))
  end.

(** What [replicate]'s two [except] clauses turn a raised exception into. *)
Definition reraised (e : exn) : exn :=
  match e with
  | FileNotFoundError message => ValueError message
  | _ => e
  end.

(** The specification's PermanentRemoteError: auth failure, permission
    denied, malformed request, by the HTTP status the source store reports
    as the error code. *)
Definition permanent_remote_error (e : exn) : bool :=
  match e with
  | ClientError code _ =>
      String.eqb code "400" || String.eqb code "401" || String.eqb code "403"
  | _ => false
  end.


(** The destination keeps the metadata it was given: a re-read that
    succeeds after a successful write, the source stream closed in between,
    returns that metadata. *)
Definition keeps_metadata (E : Type) `{Clients E} : Prop :=
  forall gcs_key md body ct timeout s s1,
    blob_upload_from_file gcs_key md body ct timeout s = (Return tt, s1) ->
    forall md' s2,
      blob_reload gcs_key (body_close body s1) = (Return md', s2) ->
      md' = Some md.

(** ** More ways to read a trace *)

(** The time spent waiting. *)
Definition total_wait (tr : list event) : Z := foldr Z.add 0 (sleeps tr).

Definition is_get_object (c : call) : bool :=
  match c with GetObject _ _ => true | _ => false end.

Definition is_upload (c : call) : bool :=
  match c with UploadFromFile _ _ _ _ _ => true | _ => false end.

(** A call of the transfer that [replicate bucket key] may make: the
    source object it reads, the destination key it writes, the provenance
    it attaches. *)
Definition own_call (bucket key : string) (c : call) : Prop :=
  match c with
  | HeadObject b k | GetObject b k => b = bucket /\ k = key
  | UploadFromFile gcs_key metadata _ _ timeout =>
      gcs_key = gcs_key_of bucket key /\
      metadata !! "s3_bucket" = Some bucket /\
      metadata !! "s3_key" = Some key /\
      timeout = 300
  | BlobExists gcs_key | BlobReload gcs_key => gcs_key = gcs_key_of bucket key
  | BodyOpened _ | BodyClose _ => True
  end.

(** Does [s] begin, or end, with the character [c]? *)
Definition starts_with (c : ascii) (s : string) : bool :=
  match s with
  | String a _ => Ascii.eqb a c
  | EmptyString => false
  end.

Definition ends_with (c : ascii) (s : string) : bool :=
  starts_with c (String.rev s).

(** ** The route [/v1/replicate] *)

(** A value found in the request's JSON, as far as the route looks at it:
    [None], a string, or anything else (a number, a boolean, a list, an
    object) with its truth value. *)
Inductive pyvalue : Type :=
  | PyNone
  | PyStr (s : string)
  | PyOther (truth : bool).

(** [bool(v)] *)
Definition truthy (v : pyvalue) : bool :=
  match v with
  | PyNone => false
  | PyStr s => negb (String.eqb s "")
  | PyOther truth => truth
  end.

(** What [request.get_json()] returns: a dict, or a value of another type
    (given by the name of its type). *)
Inductive pyjson : Type :=
  | JsonObject (fields : gmap string pyvalue)
  | JsonOther (type_name : string).

(** The request, as the route reads it.  [get_json] raises on a body that
    does not parse. *)
Record Request : Type := {
  is_json : bool;
  get_json : outcome pyjson
}.

(** The argument of [jsonify]: a result of [replicate], or one of the two
    shapes of error dict. *)
Inductive ResponseBody : Type :=
  | ResultBody (result : ReplicationResult)
  | ErrorBody (error : string)
  | ErrorMessageBody (error message : string).

(** A response: body and status code. *)
Definition Response : Type := ResponseBody * Z.

(** [str(e)]: the message an exception carries. *)
Definition str (e : exn) : string :=
  match e with
  | ClientError _ message | BotoCoreError message | GoogleAPIError message
  | FileNotFoundError message | ValueError message | TypeError message
  | OtherException _ message => message
  end.

(** What the route's two [except] clauses answer to an exception. *)
Definition error_response (e : exn) : Response :=
  match e with
  | ValueError _ => (ErrorBody (str e), 404)
  | _ => (ErrorMessageBody "Internal server error" (str e), 500)
  end.

Section Routes.

Context {E : Type} `{Clients E}.
Variable MAX_RETRIES : Z.
Variable GCS_BUCKET_NAME : string.

(** [replicate] called with an argument that is not a string: what boto3
    does with it is outside the model. *)
Variable replicate_untyped : pyvalue -> pyvalue -> M E event ReplicationResult.

(** [data.get(key)] *)
Definition dict_get (data : pyjson) (key : string) : M E event pyvalue :=
  match data with
  | JsonObject fields => ret (default PyNone (fields !! key))
  | JsonOther type_name =>
      raise (OtherException "AttributeError"
               ("'" +:+ type_name +:+ "' object has no attribute 'get'"))
  end.

(** [replication_service.replicate(s3_bucket, s3_key)] on the values of the
    request. *)
Definition service_replicate (s3_bucket s3_key : pyvalue)
  : M E event ReplicationResult :=
  match s3_bucket, s3_key with
  | PyStr bucket, PyStr key => replicate MAX_RETRIES GCS_BUCKET_NAME bucket key
  | _, _ => replicate_untyped s3_bucket s3_key
  end.

Definition replicate_endpoint (request : Request) : M E event Response :=
  try_except
    (if negb (is_json request) then
       ret (ErrorBody "Content-Type must be application/json", 400)
     else
       data <- (fun s => (get_json request, s, []));;
       s3_bucket <- dict_get data "s3_bucket";;
       s3_key <- dict_get data "s3_key";;
       if negb (truthy s3_bucket) || negb (truthy s3_key) then
         ret (ErrorBody "Missing required fields: s3_bucket and s3_key", 400)
       else
         result <- service_replicate s3_bucket s3_key;;
         let status_code :=
           if String.eqb (status result) "success" then 200 else 200 in
         ret (ResultBody result, status_code))
    (fun e =>
       match e with
       | ValueError _ => ret (ErrorBody (str e), 404)
       | _ => ret (ErrorMessageBody "Internal server error" (str e), 500)
       end).

End Routes.

(** ** Construction of the service, and the script *)

(** The two client constructors.  What they return stands for the client
    object. *)
Class Factories (E S3 GCS : Type) : Type := {
  (* boto3.client('s3', region_name=, aws_access_key_id=, aws_secret_access_key=) *)
  boto3_client : string -> option string -> option string -> E -> outcome S3 * E;
  (* storage.Client() *)
  storage_Client : E -> outcome GCS * E
}.

Inductive init_call : Type :=
  | Boto3Client (region_name : string)
      (aws_access_key_id aws_secret_access_key : option string)
  | StorageClient.

(** The attributes of a [ReplicationService] object; [gcs_bucket] is the
    bucket handle: the client it was made from and the bucket's name. *)
Record ReplicationService (S3 GCS : Type) : Type := {
  s3_client : option S3;
  gcs_client : option GCS;
  gcs_bucket : option (GCS * string)
}.
Arguments s3_client {S3 GCS} _.
Arguments gcs_client {S3 GCS} _.
Arguments gcs_bucket {S3 GCS} _.

(** [not v] for a variable read with [os.getenv]: unset or empty. *)
Definition env_unset (v : option string) : bool :=
  match v with
  | None => true
  | Some s => String.eqb s ""
  end.

(** How the script ends up: [exit(code)], or [app.run(host, port, debug)]. *)
Inductive started : Type :=
  | Exit (code : Z)
  | Run (host : string) (port : Z) (debug : bool).

Section Startup.

Context {E S3 GCS : Type} `{Factories E S3 GCS}.

(** The environment, as read at import. *)
Variable AWS_REGION : string.
Variable AWS_ACCESS_KEY_ID AWS_SECRET_ACCESS_KEY : option string.
Variable GCS_BUCKET_NAME : option string.

(** A constructor call, recorded. *)
Definition construct {A} (c : init_call) (f : E -> outcome A * E)
  : M E init_call A :=
  fun s => let '(r, s1) := f s in (r, s1, [c]).

Definition _initialize_clients (self : ReplicationService S3 GCS)
  : M E init_call (ReplicationService S3 GCS) :=
  try_except
    (client <- construct
                 (Boto3Client AWS_REGION AWS_ACCESS_KEY_ID AWS_SECRET_ACCESS_KEY)
                 (boto3_client AWS_REGION AWS_ACCESS_KEY_ID AWS_SECRET_ACCESS_KEY);;
     let self := {| s3_client := Some client; gcs_client := gcs_client self;
                    gcs_bucket := gcs_bucket self |} in
     gcs <- construct StorageClient storage_Client;;
     let self := {| s3_client := s3_client self; gcs_client := Some gcs;
                    gcs_bucket := gcs_bucket self |} in
     match GCS_BUCKET_NAME with
     | Some name =>
         if String.eqb name "" then
           raise (ValueError "GCS_BUCKET_NAME environment variable not set")
         else
           ret {| s3_client := s3_client self; gcs_client := gcs_client self;
                  gcs_bucket := Some (gcs, name) |}
     | None => raise (ValueError "GCS_BUCKET_NAME environment variable not set")
     end)
    (fun e => raise e).

(** [ReplicationService()] *)
Definition __init__ : M E init_call (ReplicationService S3 GCS) :=
  _initialize_clients
    {| s3_client := None; gcs_client := None; gcs_bucket := None |}.

(** [python app.py]: the module-level [replication_service =
    ReplicationService()], then the block under [if __name__ ==
    '__main__'].  [PORT] is what [int(os.getenv('PORT', '5000'))] gives,
    [DEBUG] what the comparison of the lowered [DEBUG] variable with
    ['true'] gives. *)
Definition script (PORT : outcome Z) (DEBUG : bool) : M E init_call started :=
  replication_service <- __init__;;
  if env_unset GCS_BUCKET_NAME then ret (Exit 1)
  else
    port <- (fun s => (PORT, s, []));;
    ret (Run "0.0.0.0" port DEBUG).

End Startup.

(** ** Requests and constructors to run them on *)
Module Http.

Definition json_request (fields : gmap string pyvalue) : Request :=
  {| is_json := true; get_json := Return (JsonObject fields) |}.

Definition raw_logs_request : Request :=
  json_request {[ "s3_bucket" := PyStr "raw-logs";
                  "s3_key" := PyStr "2024/01/01.log" ]}.

Definition missing_request : Request :=
  json_request {[ "s3_bucket" := PyStr "raw-logs";
                  "s3_key" := PyStr "missing.log" ]}.

Definition no_key_request : Request :=
  json_request {[ "s3_bucket" := PyStr "raw-logs" ]}.

Definition list_request : Request :=
  {| is_json := true; get_json := Return (JsonOther "list") |}.

(** An argument that is not a string fails boto3's parameter validation. *)
Definition invalid_parameter {E} (b k : pyvalue) : M E event ReplicationResult :=
  raise (BotoCoreError "Parameter validation failed").

(** The stores of the example, the next remote call failing once. *)
Definition flaky_once : Sim.world :=
  Sim.set_faults [Some Outage.unavailable] Sim.raw_logs.

(** Constructors that work; the state counts the clients made. *)
#[global] Instance working_factories : Factories nat nat nat := {
  boto3_client := fun _ _ _ n => (Return n, S n);
  storage_Client := fun n => (Return n, S n)
}.

End Http.

(** * Properties *)

Section RetryWrapper.

Context {E : Type} `{Clients E}.
Variable MAX_RETRIES : Z.

(** *** One iteration of the loop *)

Lemma retry_loop_returns {A} (func : M E call A) attempt rest s a s1 t1 :
  func s = (Return a, s1, t1) ->
  retry_loop MAX_RETRIES func (attempt :: rest) s
  = (Return (Some a), s1, Attempt attempt :: (Call <$> t1)).
Proof.
  intros Hf. cbn [retry_loop]. unfold try_except, bind, tell, lift, ret.
  rewrite Hf. cbn. by rewrite app_nil_r.
Qed.

Lemma retry_loop_gives_up {A} (func : M E call A) attempt rest s e s1 t1 :
  func s = (Raise e, s1, t1) ->
  retryable e = false ->
  retry_loop MAX_RETRIES func (attempt :: rest) s
  = (Raise e, s1, Attempt attempt :: (Call <$> t1)).
Proof.
  intros Hf He. cbn [retry_loop]. unfold try_except, bind, tell, lift, raise.
  rewrite Hf, He. cbn. by rewrite app_nil_r.
Qed.

Lemma retry_loop_last {A} (func : M E call A) attempt rest s e s1 t1 :
  func s = (Raise e, s1, t1) ->
  retryable e = true ->
  attempt = MAX_RETRIES - 1 ->
  retry_loop MAX_RETRIES func (attempt :: rest) s
  = (Raise e, s1, Attempt attempt :: (Call <$> t1)).
Proof.
  intros Hf He ->. cbn [retry_loop]. unfold try_except, bind, tell, lift, raise.
  rewrite Hf, He, Z.eqb_refl. cbn. by rewrite app_nil_r.
Qed.

Lemma retry_loop_again {A} (func : M E call A) attempt rest s e s1 t1 :
  func s = (Raise e, s1, t1) ->
  retryable e = true ->
  attempt <> MAX_RETRIES - 1 ->
  retry_loop MAX_RETRIES func (attempt :: rest) s
  = let '(r, s2, t2) :=
      retry_loop MAX_RETRIES func rest (time_sleep (2 ^ attempt) s1) in
    (r, s2, Attempt attempt :: (Call <$> t1) ++ Sleep (2 ^ attempt) :: t2).
Proof.
  intros Hf He Hne. cbn [retry_loop]. unfold try_except, bind, tell, lift, sleep.
  rewrite Hf, He. apply Z.eqb_neq in Hne. rewrite Hne.
  destruct (retry_loop MAX_RETRIES func rest (time_sleep (2 ^ attempt) s1))
    as [[r s2] t2].
  reflexivity.
Qed.

End RetryWrapper.

(** *** Traces *)

Section Traces.

Lemma schedule_app (t1 t2 : list event) :
  schedule (t1 ++ t2) = schedule t1 ++ schedule t2.
Proof.
  induction t1 as [|[]]; cbn; [done | f_equal; done | f_equal; done | done].
Qed.

Lemma schedule_calls (t : list call) : schedule (Call <$> t) = [].
Proof. induction t; cbn; done. Qed.

Lemma calls_app (t1 t2 : list event) : calls (t1 ++ t2) = calls t1 ++ calls t2.
Proof.
  induction t1 as [|[]]; cbn; [done | done | done | f_equal; done].
Qed.

Lemma calls_fmap (t : list call) : calls (Call <$> t) = t.
Proof. induction t; cbn; [done | f_equal; done]. Qed.

Lemma attempts_made_schedule (t : list event) :
  attempts_made (schedule t) = attempts_made t.
Proof. induction t as [|[]]; cbn; congruence. Qed.

Lemma sleeps_schedule (t : list event) : sleeps (schedule t) = sleeps t.
Proof. induction t as [|[]]; cbn; congruence. Qed.

Lemma backoff_schedule_cons (a b : Z) (rest : list Z) :
  backoff_schedule (a :: b :: rest)
  = Attempt a :: Sleep (2 ^ a) :: backoff_schedule (b :: rest).
Proof. reflexivity. Qed.

Lemma attempts_made_backoff (attempts : list Z) :
  attempts_made (backoff_schedule attempts) = length attempts.
Proof.
  induction attempts as [|a [|b rest] IH]; [done | done |].
  rewrite backoff_schedule_cons. cbn [attempts_made length]. by rewrite IH.
Qed.

Lemma sleeps_backoff (i k : nat) :
  sleeps (backoff_schedule (Z.of_nat <$> seq i (S k)))
  = (fun attempt => 2 ^ attempt) <$> (Z.of_nat <$> seq i k).
Proof.
  revert i. induction k as [|k IH]; intros i; [done |].
  change (seq i (S (S k))) with (i :: S i :: seq (S (S i)) k).
  rewrite !fmap_cons, backoff_schedule_cons. cbn [sleeps].
  change (seq i (S k)) with (i :: seq (S i) k).
  rewrite !fmap_cons. f_equal. apply (IH (S i)).
Qed.

Lemma backoff_waits_increase (k i : nat) (w1 w2 : Z) :
  ((fun attempt => 2 ^ attempt) <$> (Z.of_nat <$> seq 0 k)) !! i = Some w1 ->
  ((fun attempt => 2 ^ attempt) <$> (Z.of_nat <$> seq 0 k)) !! S i = Some w2 ->
  w1 < w2.
Proof.
  rewrite !list_lookup_fmap. intros H1 H2.
  destruct (seq 0 k !! i) as [a|] eqn:Ha; [|done].
  destruct (seq 0 k !! S i) as [b|] eqn:Hb; [|done].
  apply lookup_seq in Ha as [-> _]. apply lookup_seq in Hb as [-> _].
  cbn in H1, H2. injection H1 as <-. injection H2 as <-.
  apply Z.pow_lt_mono_r; lia.
Qed.

End Traces.

Section RetryWrapperClaims.

Context {E : Type} `{Clients E}.
Variable MAX_RETRIES : Z.

(** The attempt that starts after one more failure. *)
Lemma state_before_attempt_S {A} (func : M E call A) (first n : nat) (s : E) :
  state_before_attempt func first (S n) s
  = state_before_attempt func (S first) n
      (time_sleep (2 ^ Z.of_nat first) (state_of (func s))).
Proof. reflexivity. Qed.

(** An operation that fails with a retryable error on each of the attempts
    that are left uses them up. *)
Lemma retry_loop_all_fail {A} (func : M E call A) :
  forall (k i : nat) (s : E),
    Z.of_nat (i + S k) = MAX_RETRIES ->
    (forall j, (j <= k)%nat ->
       exists e,
         outcome_of (func (state_before_attempt func i j s)) = Raise e /\
         retryable e = true) ->
    let r := retry_loop MAX_RETRIES func (Z.of_nat <$> seq i (S k)) s in
    let last := func (state_before_attempt func i k s) in
    schedule (trace_of r) = backoff_schedule (Z.of_nat <$> seq i (S k)) /\
    calls (trace_of r)
    = concat ((fun j => trace_of (func (state_before_attempt func i j s)))
                <$> seq 0 (S k)) /\
    (exists e, outcome_of last = Raise e /\ outcome_of r = Raise e) /\
    state_of r = state_of last.
Proof.
  induction k as [|k IH]; intros i s Hmax Hfail.
  - destruct (Hfail 0%nat) as (e & Hraise & He); [lia |].
    cbn [state_before_attempt] in Hraise |- *.
    destruct (func s) as [[o s1] t1] eqn:Hf. cbn in Hraise. subst o.
    cbn [seq fmap list_fmap].
    rewrite (retry_loop_last MAX_RETRIES func _ _ _ _ _ _ Hf He) by lia.
    cbn. rewrite schedule_calls, calls_fmap, app_nil_r, Hf.
    split; [done |]. split; [done |]. split; [by exists e | done].
  - destruct (Hfail 0%nat) as (e & Hraise & He); [lia |].
    cbn [state_before_attempt] in Hraise.
    destruct (func s) as [[o s1] t1] eqn:Hf. cbn in Hraise. subst o.
    change (seq i (S (S k))) with (i :: seq (S i) (S k)).
    change (seq 0 (S (S k))) with (0%nat :: seq 1 (S k)).
    rewrite !fmap_cons, <- (fmap_S_seq 0 (S k)), <- list_fmap_compose.
    rewrite (retry_loop_again MAX_RETRIES func _ _ _ _ _ _ Hf He) by lia.
    specialize (IH (S i) (time_sleep (2 ^ Z.of_nat i) s1)).
    rewrite state_before_attempt_S, Hf.
    change (state_of (Raise e, s1, t1)) with s1.
    assert (Hshift : forall j,
               state_before_attempt func i (S j) s
               = state_before_attempt func (S i) j
                   (time_sleep (2 ^ Z.of_nat i) s1)).
    { intros j. by rewrite state_before_attempt_S, Hf. }
    destruct (retry_loop MAX_RETRIES func (Z.of_nat <$> seq (S i) (S k))
                (time_sleep (2 ^ Z.of_nat i) s1)) as [[r s2] t2].
    destruct IH as (Hsched & Hcalls & Hlast & Hstate); [lia | |].
    { intros j Hj. rewrite <- Hshift. apply Hfail. lia. }
    change (trace_of (r, s2, t2)) with t2 in Hsched, Hcalls.
    change (outcome_of (r, s2, t2)) with r in Hlast.
    change (state_of (r, s2, t2)) with s2 in Hstate.
    unfold trace_of, outcome_of, state_of. cbn [fst snd].
    split; [| split; [| by split]].
    + change (seq (S i) (S k)) with (S i :: seq (S (S i)) k) in Hsched |- *.
      rewrite fmap_cons in Hsched |- *. rewrite backoff_schedule_cons.
      cbn [schedule]. rewrite schedule_app, schedule_calls.
      cbn [schedule app]. by rewrite Hsched.
    + cbn [calls concat]. rewrite calls_app, calls_fmap. cbn [calls].
      cbn [state_before_attempt]. rewrite Hf. cbn [snd]. f_equal.
      rewrite Hcalls. f_equal. apply list_fmap_ext. intros _ j _.
      unfold compose. by rewrite Hshift.
Qed.

(** C3. An operation that raises a retryable error on every attempt is
    invoked exactly [MAX_RETRIES] times (at least one attempt being
    configured): the run consists of the calls of that many invocations,
    one after the other.  Between consecutive attempts the wrapper waits
    two to the attempt's index, so 1, 2, 4, ..., each wait longer than the
    one before; after the final attempt it raises the error of that
    attempt, as it is, and does not wait again. *)
Theorem retry_exhausts_on_transient {A} (func : M E call A) (s : E) :
  1 <= MAX_RETRIES ->
  (forall n, (n < Z.to_nat MAX_RETRIES)%nat ->
     exists e,
       outcome_of (func (state_before_attempt func 0 n s)) = Raise e /\
       retryable e = true) ->
  let r := _retry_with_backoff MAX_RETRIES func s in
  let last := func (state_before_attempt func 0 (Z.to_nat MAX_RETRIES - 1) s) in
  attempts_made (trace_of r) = Z.to_nat MAX_RETRIES /\
  calls (trace_of r)
  = concat ((fun n => trace_of (func (state_before_attempt func 0 n s)))
              <$> seq 0 (Z.to_nat MAX_RETRIES)) /\
  schedule (trace_of r) = backoff_schedule (range MAX_RETRIES) /\
  sleeps (trace_of r) = (fun attempt => 2 ^ attempt) <$> range (MAX_RETRIES - 1) /\
  (forall i w1 w2,
      sleeps (trace_of r) !! i = Some w1 ->
      sleeps (trace_of r) !! S i = Some w2 -> w1 < w2) /\
  (exists e, outcome_of last = Raise e /\ outcome_of r = Raise e) /\
  state_of r = state_of last.
Proof.
  intros Hmax Hfail.
  destruct (Z.to_nat MAX_RETRIES) as [|k] eqn:Hk; [lia |].
  unfold _retry_with_backoff, range. rewrite Hk.
  replace (Z.to_nat (MAX_RETRIES - 1)) with k by lia.
  replace (S k - 1)%nat with k by lia.
  destruct (retry_loop_all_fail func k 0%nat s)
    as (Hsched & Hcalls & Hlast & Hstate); [lia | |].
  { intros j Hj. apply Hfail. lia. }
  cbn zeta.
  assert (Hsl : sleeps (trace_of (retry_loop MAX_RETRIES func
                                    (Z.of_nat <$> seq 0 (S k)) s))
                = (fun attempt => 2 ^ attempt) <$> (Z.of_nat <$> seq 0 k)).
  { by rewrite <- sleeps_schedule, Hsched, sleeps_backoff. }
  repeat split; try done.
  - by rewrite <- attempts_made_schedule, Hsched, attempts_made_backoff,
      length_fmap, length_seq.
  - rewrite Hsl. apply backoff_waits_increase.
Qed.

(** With attempts left up to the last one, a loop that returns does so
    with the result of an invocation that returned. *)
Lemma retry_loop_returned {A} (func : M E call A) :
  forall (k i : nat) (s s' : E) (o : option A) (t : list event),
    Z.of_nat (i + S k) = MAX_RETRIES ->
    retry_loop MAX_RETRIES func (Z.of_nat <$> seq i (S k)) s = (Return o, s', t) ->
    exists a s0 t0, o = Some a /\ func s0 = (Return a, s', t0).
Proof.
  induction k as [|k IH]; intros i s s' o t Hmax;
    destruct (func s) as [[[a|e] s1] t1] eqn:Hf.
  - cbn [seq fmap list_fmap].
    rewrite (retry_loop_returns MAX_RETRIES func _ _ _ _ _ _ Hf).
    intros [= <- <- _]. eauto.
  - cbn [seq fmap list_fmap]. destruct (retryable e) eqn:He.
    + by rewrite (retry_loop_last MAX_RETRIES func _ _ _ _ _ _ Hf He) by lia.
    + by rewrite (retry_loop_gives_up MAX_RETRIES func _ _ _ _ _ _ Hf He).
  - change (seq i (S (S k))) with (i :: seq (S i) (S k)). rewrite fmap_cons.
    rewrite (retry_loop_returns MAX_RETRIES func _ _ _ _ _ _ Hf).
    intros [= <- <- _]. eauto.
  - change (seq i (S (S k))) with (i :: seq (S i) (S k)). rewrite fmap_cons.
    destruct (retryable e) eqn:He.
    + rewrite (retry_loop_again MAX_RETRIES func _ _ _ _ _ _ Hf He) by lia.
      destruct (retry_loop MAX_RETRIES func (Z.of_nat <$> seq (S i) (S k))
                  (time_sleep (2 ^ Z.of_nat i) s1)) as [[r s2] t2] eqn:Hrest.
      intros [= -> -> _]. eapply (IH (S i)); [lia | exact Hrest].
    + by rewrite (retry_loop_gives_up MAX_RETRIES func _ _ _ _ _ _ Hf He).
Qed.

(** The wrapper returns [None] only when no attempt is configured;
    otherwise what it returns is what an invocation returned, in the state
    that invocation left. *)
Lemma retry_with_backoff_returned {A} (func : M E call A) (s s' : E)
    (o : option A) (t : list event) :
  _retry_with_backoff MAX_RETRIES func s = (Return o, s', t) ->
  (MAX_RETRIES <= 0 /\ o = None /\ s' = s /\ t = []) \/
  (1 <= MAX_RETRIES /\
   exists a s0 t0, o = Some a /\ func s0 = (Return a, s', t0)).
Proof.
  unfold _retry_with_backoff, range.
  destruct (Z.to_nat MAX_RETRIES) as [|k] eqn:Hk.
  - intros [= <- <- <-]. left. repeat split; [lia | done..].
  - intros Hrun. right. split; [lia |].
    eapply (retry_loop_returned func k 0%nat); [lia | exact Hrun].
Qed.

(** C10. With a maximum retry count of zero or less the wrapper returns
    [None] without calling the operation: no attempt, no wait, the state
    untouched, and no error. *)
Theorem retry_without_attempts_returns_none {A} (func : M E call A) (s : E) :
  MAX_RETRIES <= 0 ->
  _retry_with_backoff MAX_RETRIES func s = (Return None, s, []).
Proof.
  intros Hmax. unfold _retry_with_backoff, range.
  replace (Z.to_nat MAX_RETRIES) with 0%nat by lia. reflexivity.
Qed.

(** C2, as the code has it. An error outside the three classes of the
    wrapper's [except] clause is raised at once, as it is: the attempt that
    raised it is the last one, whatever attempts remain, and no wait
    follows.  With at least one attempt configured this holds for the first
    call in particular, which is then the only one. *)
Theorem retry_rethrows_unlisted_error {A} (func : M E call A) (s : E) e :
  outcome_of (func s) = Raise e ->
  retryable e = false ->
  (forall attempt rest,
      let r := retry_loop MAX_RETRIES func (attempt :: rest) s in
      outcome_of r = Raise e /\
      state_of r = state_of (func s) /\
      trace_of r = Attempt attempt :: (Call <$> trace_of (func s))) /\
  (1 <= MAX_RETRIES ->
   let r := _retry_with_backoff MAX_RETRIES func s in
   outcome_of r = Raise e /\
   attempts_made (trace_of r) = 1%nat /\
   sleeps (trace_of r) = []).
Proof.
  intros Hraise He.
  destruct (func s) as [[o s1] t1] eqn:Hf. cbn in Hraise. subst o.
  assert (Hstep : forall attempt rest,
             retry_loop MAX_RETRIES func (attempt :: rest) s
             = (Raise e, s1, Attempt attempt :: (Call <$> t1))).
  { intros. by apply retry_loop_gives_up. }
  split.
  - intros attempt rest. cbn zeta. by rewrite Hstep.
  - intros Hmax. unfold _retry_with_backoff, range.
    destruct (Z.to_nat MAX_RETRIES) as [|k] eqn:Hk; [lia |].
    change (seq 0 (S k)) with (0%nat :: seq 1 k). rewrite fmap_cons.
    cbn zeta. rewrite Hstep. cbn.
    rewrite <- attempts_made_schedule, <- sleeps_schedule, schedule_calls.
    done.
Qed.

End RetryWrapperClaims.

Section ServiceSteps.

Context {E : Type} `{Clients E}.
Variable MAX_RETRIES : Z.
Variable GCS_BUCKET_NAME : string.

(** *** The source inspection *)

Lemma get_s3_metadata_run (bucket key : string) (s : E) :
  _get_s3_metadata bucket key s
  = match head_object bucket key s with
    | (Return response, s1) =>
        (Return {| etag := strip dquote (default "" (ETag response));
                   size := default 0 (ContentLength response);
                   last_modified := LastModified response |},
         s1, [HeadObject bucket key])
    | (Raise e, s1) =>
        (Raise match e with
               | ClientError code _ =>
                   if String.eqb code "404"
                   then FileNotFoundError
                          ("S3 object not found: s3://" +:+ bucket +:+ "/" +:+ key)
                   else e
               | _ => e
               end,
         s1, [HeadObject bucket key])
    end.
Proof.
  unfold _get_s3_metadata, try_except, bind, remote, ret, raise.
  destruct (head_object bucket key s) as [[response|e] s1]; [done |].
  destruct e as [code msg| | | | | |]; try done.
  by destruct (String.eqb code "404").
Qed.

Lemma get_s3_metadata_trace (bucket key : string) (s : E) :
  trace_of (_get_s3_metadata bucket key s) = [HeadObject bucket key].
Proof.
  rewrite get_s3_metadata_run.
  by destruct (head_object bucket key s) as [[response|e] s1].
Qed.

(** *** The existence check *)

Lemma etag_eq_stored (metadata : option (gmap string string)) (s3_etag : string) :
  etag_eq (stored_etag_of metadata) s3_etag = true
  <-> exists m, metadata = Some m /\ m !! "s3_etag" = Some s3_etag.
Proof.
  destruct metadata as [m|]; cbn.
  - case_bool_decide as Hm; cbn.
    + subst m. split; [done |].
      intros (m & [= <-] & Hl). by rewrite lookup_empty in Hl.
    + destruct (m !! "s3_etag") as [t|] eqn:Ht; cbn.
      * rewrite String.eqb_eq. split.
        -- intros ->. eauto.
        -- intros (m' & [= <-] & Hl). congruence.
      * split; [done |]. intros (m' & [= <-] & Hl). congruence.
  - split; [done |]. by intros (m & ? & _).
Qed.

Lemma check_gcs_exists_run (gcs_key s3_etag : string) (s : E) :
  _check_gcs_exists gcs_key s3_etag s
  = match blob_exists gcs_key s with
    | (Return true, s1) =>
        match blob_reload gcs_key s1 with
        | (Return metadata, s2) =>
            (Return (etag_eq (stored_etag_of metadata) s3_etag), s2,
             [BlobExists gcs_key; BlobReload gcs_key])
        | (Raise _, s2) =>
            (Return false, s2, [BlobExists gcs_key; BlobReload gcs_key])
        end
    | (Return false, s1) => (Return false, s1, [BlobExists gcs_key])
    | (Raise _, s1) => (Return false, s1, [BlobExists gcs_key])
    end.
Proof.
  unfold _check_gcs_exists, try_except, bind, remote, ret.
  destruct (blob_exists gcs_key s) as [[[|]|e] s1]; try done.
  destruct (blob_reload gcs_key s1) as [[metadata|e] s2]; [|done].
  by destruct (etag_eq (stored_etag_of metadata) s3_etag).
Qed.

(** *** The stream transfer *)

Lemma stream_upload_run (s3_bucket s3_key gcs_key : string)
    (s3_metadata : S3Metadata) (s : E) :
  _stream_upload s3_bucket s3_key gcs_key s3_metadata s
  = match get_object s3_bucket s3_key s with
    | (Raise e, s1) => (Raise e, s1, [GetObject s3_bucket s3_key])
    | (Return s3_response, s1) =>
        let metadata :=
          provenance s3_bucket s3_key s3_metadata (time_strftime s1) in
        let ct := default "application/octet-stream" (ContentType s3_response) in
        let body := Body s3_response in
        let tr := [GetObject s3_bucket s3_key; BodyOpened body;
                   UploadFromFile gcs_key metadata body ct 300;
                   BodyClose body] in
        match blob_upload_from_file gcs_key metadata body ct 300 s1 with
        | (Return _, s2) => (Return true, body_close body s2, tr)
        | (Raise e, s2) => (Raise e, body_close body s2, tr)
        end
    end.
Proof.
  unfold _stream_upload, try_except, bind, with_body, remote, tell, strftime,
    ret, raise.
  destruct (get_object s3_bucket s3_key s) as [[s3_response|e] s1]; [|done].
  cbn zeta.
  by destruct (blob_upload_from_file _ _ _ _ _ s1) as [[[]|e] s2].
Qed.

(** *** The orchestration *)

Lemma replicate_run (s3_bucket s3_key : string) (s : E) :
  replicate MAX_RETRIES GCS_BUCKET_NAME s3_bucket s3_key s
  = let gcs_key := gcs_key_of s3_bucket s3_key in
    match _retry_with_backoff MAX_RETRIES (_get_s3_metadata s3_bucket s3_key) s with
    | (Raise e, s1, t1) => (Raise (reraised e), s1, t1)
    | (Return None, s1, t1) =>
        (Raise (TypeError "'NoneType' object is not subscriptable"), s1, t1)
    | (Return (Some s3_metadata), s1, t1) =>
        match _check_gcs_exists gcs_key (etag s3_metadata) s1 with
        | (Raise e, s2, t2) => (Raise (reraised e), s2, t1 ++ (Call <$> t2))
        | (Return true, s2, t2) =>
            (Return (Skipped "File already exists with same content"
                       ("gs://" +:+ GCS_BUCKET_NAME +:+ "/" +:+ gcs_key)),
             s2, t1 ++ (Call <$> t2))
        | (Return false, s2, t2) =>
            match _retry_with_backoff MAX_RETRIES
                    (_stream_upload s3_bucket s3_key gcs_key s3_metadata) s2 with
            | (Raise e, s3, t3) =>
                (Raise (reraised e), s3, t1 ++ (Call <$> t2) ++ t3)
            | (Return _, s3, t3) =>
                (Return (Succeeded "File replicated successfully"
                           ("s3://" +:+ s3_bucket +:+ "/" +:+ s3_key)
                           ("gs://" +:+ GCS_BUCKET_NAME +:+ "/" +:+ gcs_key)
                           (size s3_metadata)),
                 s3, t1 ++ (Call <$> t2) ++ t3)
            end
        end
    end.
Proof.
  unfold replicate, try_except at 1. unfold bind at 1. cbn zeta.
  destruct (_retry_with_backoff MAX_RETRIES (_get_s3_metadata s3_bucket s3_key) s)
    as [[[[s3_metadata|]|e] s1] t1].
  - unfold bind at 1, lift.
    destruct (_check_gcs_exists _ (etag s3_metadata) s1) as [[[[|]|e] s2] t2].
    + cbn. by rewrite app_nil_r.
    + unfold bind.
      destruct (_retry_with_backoff MAX_RETRIES _ s2) as [[[a|e] s3] t3].
      * cbn. by rewrite app_nil_r.
      * destruct e; cbn; by rewrite app_nil_r.
    + destruct e; cbn; by rewrite app_nil_r.
  - cbn. by rewrite !app_nil_r.
  - destruct e; cbn; by rewrite app_nil_r.
Qed.

End ServiceSteps.

Section ServiceClaims.

Context {E : Type} `{Clients E}.
Variable MAX_RETRIES : Z.
Variable GCS_BUCKET_NAME : string.

(** The wrapper makes no remote call of its own: what holds of every call
    of the operation holds of every call of the wrapped operation. *)
Lemma retry_loop_calls {A} (func : M E call A) (P : call -> Prop) :
  (forall s, Forall P (trace_of (func s))) ->
  forall attempts s,
    Forall P (calls (trace_of (retry_loop MAX_RETRIES func attempts s))).
Proof.
  intros HP. induction attempts as [|attempt rest IH]; intros s.
  - constructor.
  - specialize (HP s).
    destruct (func s) as [[[a|e] s1] t1] eqn:Hf; cbn in HP.
    + rewrite (retry_loop_returns MAX_RETRIES func _ _ _ _ _ _ Hf).
      cbn. by rewrite calls_fmap.
    + destruct (retryable e) eqn:He.
      * destruct (decide (attempt = MAX_RETRIES - 1)) as [Heq|Hne].
        -- rewrite (retry_loop_last MAX_RETRIES func _ _ _ _ _ _ Hf He Heq).
           cbn. by rewrite calls_fmap.
        -- rewrite (retry_loop_again MAX_RETRIES func _ _ _ _ _ _ Hf He Hne).
           specialize (IH (time_sleep (2 ^ attempt) s1)).
           destruct (retry_loop MAX_RETRIES func rest _) as [[r s2] t2].
           cbn in IH |- *. rewrite calls_app, calls_fmap. cbn.
           by apply Forall_app.
      * rewrite (retry_loop_gives_up MAX_RETRIES func _ _ _ _ _ _ Hf He).
        cbn. by rewrite calls_fmap.
Qed.

Lemma filter_none {A} (f : A -> bool) (l : list A) :
  Forall (fun x => f x = false) l -> List.filter f l = [].
Proof.
  induction 1 as [|x l Hx _ IH]; [done |]. cbn. by rewrite Hx.
Qed.

Lemma inspection_makes_no_transfer (bucket key : string) (s : E) :
  transfer_calls
    (trace_of (_retry_with_backoff MAX_RETRIES (_get_s3_metadata bucket key) s))
  = [].
Proof.
  unfold transfer_calls, _retry_with_backoff. apply filter_none.
  apply retry_loop_calls. intros s'. rewrite get_s3_metadata_trace.
  by repeat constructor.
Qed.

(** C4. The existence check never raises.  It answers [True] exactly when
    the destination reports the object as existing, the re-read of its
    metadata succeeds, and the metadata holds the expected tag under
    [s3_etag]; an absent object, a different or missing tag, and an error
    of either remote call all give [False]. *)
Theorem check_gcs_exists_iff (gcs_key s3_etag : string) (s : E) :
  exists b,
    outcome_of (_check_gcs_exists gcs_key s3_etag s) = Return b /\
    (b = true <->
     exists s1 m s2,
       blob_exists gcs_key s = (Return true, s1) /\
       blob_reload gcs_key s1 = (Return (Some m), s2) /\
       m !! "s3_etag" = Some s3_etag).
Proof.
  rewrite check_gcs_exists_run.
  destruct (blob_exists gcs_key s) as [[[|]|e] s1] eqn:Hex.
  - destruct (blob_reload gcs_key s1) as [[metadata|e] s2] eqn:Hre.
    + eexists; split; [reflexivity |]. rewrite etag_eq_stored. split.
      * intros (m & -> & Hm). by exists s1, m, s2.
      * intros (s1' & m & s2' & [= <-] & Hre' & Hm).
        rewrite Hre in Hre'. injection Hre' as -> _. eauto.
    + exists false. split; [done |]. split; [done |].
      intros (s1' & m & s2' & [= <-] & Hre' & _). congruence.
  - exists false. split; [done |]. split; [done |].
    by intros (s1' & m & s2' & ? & _).
  - exists false. split; [done |]. split; [done |].
    by intros (s1' & m & s2' & ? & _).
Qed.

(** C5. When the source store answers the inspection with its 404 error,
    [_get_s3_metadata] raises [FileNotFoundError], which the wrapper does
    not retry: the invocation ends with the not-found error ([ValueError]
    with the not-found message) after one attempt, one [head_object] call
    and no wait (at least one attempt being configured). *)
Theorem missing_source_not_retried (bucket key msg : string) (s s1 : E) :
  1 <= MAX_RETRIES ->
  head_object bucket key s = (Raise (ClientError "404" msg), s1) ->
  let text := "S3 object not found: s3://" +:+ bucket +:+ "/" +:+ key in
  let r := replicate MAX_RETRIES GCS_BUCKET_NAME bucket key s in
  _get_s3_metadata bucket key s
  = (Raise (FileNotFoundError text), s1, [HeadObject bucket key]) /\
  retryable (FileNotFoundError text) = false /\
  outcome_of r = Raise (ValueError text) /\
  trace_of r = [Attempt 0; Call (HeadObject bucket key)] /\
  attempts_made (trace_of r) = 1%nat /\
  inspections (trace_of r) = [HeadObject bucket key] /\
  sleeps (trace_of r) = [] /\
  state_of r = s1.
Proof.
  intros Hmax Hhead text r.
  assert (Hget : _get_s3_metadata bucket key s
                 = (Raise (FileNotFoundError text), s1, [HeadObject bucket key])).
  { rewrite get_s3_metadata_run, Hhead. reflexivity. }
  assert (Hr : r = (Raise (ValueError text), s1,
                    [Attempt 0; Call (HeadObject bucket key)])).
  { subst r. rewrite replicate_run. unfold _retry_with_backoff, range.
    destruct (Z.to_nat MAX_RETRIES) as [|k] eqn:Hk; [lia |].
    change (seq 0 (S k)) with (0%nat :: seq 1 k). rewrite fmap_cons.
    rewrite (retry_loop_gives_up MAX_RETRIES _ _ _ _ _ _ _ Hget eq_refl).
    reflexivity. }
  rewrite Hr. by repeat split.
Qed.

(** C6. A call made when the destination already holds the object with the
    tag the inspection yields is skipped: [replicate] returns the
    ['skipped'] record and the run contains no call of the stream transfer
    (no [get_object], no upload), only the inspection and the two calls of
    the existence check. *)
Theorem replicate_skips_identical (bucket key : string) (s s1 s2 s3 : E)
    (s3_metadata : S3Metadata) (t1 : list event) (m : gmap string string) :
  _retry_with_backoff MAX_RETRIES (_get_s3_metadata bucket key) s
  = (Return (Some s3_metadata), s1, t1) ->
  blob_exists (gcs_key_of bucket key) s1 = (Return true, s2) ->
  blob_reload (gcs_key_of bucket key) s2 = (Return (Some m), s3) ->
  m !! "s3_etag" = Some (etag s3_metadata) ->
  let r := replicate MAX_RETRIES GCS_BUCKET_NAME bucket key s in
  outcome_of r
  = Return (Skipped "File already exists with same content"
              ("gs://" +:+ GCS_BUCKET_NAME +:+ "/" +:+ gcs_key_of bucket key)) /\
  transfer_calls (trace_of r) = [] /\
  trace_of r
  = t1 ++ [Call (BlobExists (gcs_key_of bucket key));
           Call (BlobReload (gcs_key_of bucket key))] /\
  state_of r = s3.
Proof.
  intros Hinspect Hex Hre Hm r.
  assert (Hno := inspection_makes_no_transfer bucket key s).
  assert (Hcheck : _check_gcs_exists (gcs_key_of bucket key) (etag s3_metadata) s1
                   = (Return true, s3,
                      [BlobExists (gcs_key_of bucket key);
                       BlobReload (gcs_key_of bucket key)])).
  { rewrite check_gcs_exists_run, Hex, Hre.
    replace (etag_eq (stored_etag_of (Some m)) (etag s3_metadata)) with true;
      [done |].
    symmetry. apply etag_eq_stored. eauto. }
  subst r. rewrite replicate_run. cbn zeta.
  rewrite Hinspect in Hno |- *. rewrite Hcheck. cbn in Hno |- *.
  repeat split; try done.
  unfold transfer_calls in *. rewrite calls_app, List.filter_app, Hno. done.
Qed.

(** X20. Conversely, [replicate] skips only on a match: whenever it returns
    the ['skipped'] record, the inspection had returned metadata, the
    destination had reported the object as existing, and the re-read
    metadata held the tag of the inspection.  A failed existence check
    never leads to a skip. *)
Lemma skipped_only_on_match (bucket key message gcs_path : string) (s : E) :
  outcome_of (replicate MAX_RETRIES GCS_BUCKET_NAME bucket key s)
  = Return (Skipped message gcs_path) ->
  exists s3_metadata s1 t1 s2 m s3,
    _retry_with_backoff MAX_RETRIES (_get_s3_metadata bucket key) s
    = (Return (Some s3_metadata), s1, t1) /\
    blob_exists (gcs_key_of bucket key) s1 = (Return true, s2) /\
    blob_reload (gcs_key_of bucket key) s2 = (Return (Some m), s3) /\
    m !! "s3_etag" = Some (etag s3_metadata).
Proof.
  rewrite replicate_run. cbn zeta.
  destruct (_retry_with_backoff MAX_RETRIES (_get_s3_metadata bucket key) s)
    as [[[[s3_metadata|]|e] s1] t1]; [| done..].
  rewrite check_gcs_exists_run.
  destruct (blob_exists (gcs_key_of bucket key) s1) as [[[|]|e] s2] eqn:Hex.
  - destruct (blob_reload (gcs_key_of bucket key) s2) as [[metadata|e] s3] eqn:Hre.
    + destruct (etag_eq (stored_etag_of metadata) (etag s3_metadata)) eqn:Heq.
      * apply etag_eq_stored in Heq as (m & -> & Hm). intros _.
        by exists s3_metadata, s1, t1, s2, m, s3.
      * by destruct (_retry_with_backoff MAX_RETRIES _ s3) as [[[a|e] s4] t4].
    + by destruct (_retry_with_backoff MAX_RETRIES _ s3) as [[[a|e'] s4] t4].
  - by destruct (_retry_with_backoff MAX_RETRIES _ s2) as [[[a|e] s4] t4].
  - by destruct (_retry_with_backoff MAX_RETRIES _ s2) as [[[a|e'] s4] t4].
Qed.

Lemma provenance_lookup (s3_bucket s3_key replicated_at : string)
    (s3_metadata : S3Metadata) :
  provenance s3_bucket s3_key s3_metadata replicated_at !! "s3_etag"
  = Some (etag s3_metadata) /\
  provenance s3_bucket s3_key s3_metadata replicated_at !! "s3_bucket"
  = Some s3_bucket /\
  provenance s3_bucket s3_key s3_metadata replicated_at !! "s3_key"
  = Some s3_key.
Proof.
  unfold provenance.
  split; [by rewrite lookup_insert_eq |].
  split; [by rewrite lookup_insert_ne, lookup_insert_eq |].
  do 2 (rewrite lookup_insert_ne by done). by rewrite lookup_insert_eq.
Qed.

(** A transfer that returned: the stream was obtained, the upload given
    the provenance metadata went through, the stream was closed. *)
Lemma stream_upload_returned (s3_bucket s3_key gcs_key : string)
    (s3_metadata : S3Metadata) (s s' : E) (a : bool) (tr : list call) :
  _stream_upload s3_bucket s3_key gcs_key s3_metadata s = (Return a, s', tr) ->
  exists s3_response s1 s2,
    let body := Body s3_response in
    let metadata := provenance s3_bucket s3_key s3_metadata (time_strftime s1) in
    let ct := default "application/octet-stream" (ContentType s3_response) in
    get_object s3_bucket s3_key s = (Return s3_response, s1) /\
    blob_upload_from_file gcs_key metadata body ct 300 s1 = (Return tt, s2) /\
    a = true /\
    s' = body_close body s2 /\
    tr = [GetObject s3_bucket s3_key; BodyOpened body;
          UploadFromFile gcs_key metadata body ct 300; BodyClose body].
Proof.
  rewrite stream_upload_run.
  destruct (get_object s3_bucket s3_key s) as [[s3_response|e] s1]; [|done].
  cbn zeta.
  destruct (blob_upload_from_file _ _ _ _ _ s1) as [[[]|e] s2] eqn:Hup; [|done].
  intros [= <- <- <-]. by exists s3_response, s1, s2.
Qed.

(** C7. After a transfer that succeeded, the upload was issued with the
    provenance metadata already on the blob, and a destination that keeps
    the metadata it is given returns, on a re-read, the source bucket, the
    source key and the tag of the source metadata used for the transfer. *)
Theorem stream_upload_provenance (s3_bucket s3_key gcs_key : string)
    (s3_metadata : S3Metadata) (s s' : E) (tr : list call) :
  keeps_metadata E ->
  _stream_upload s3_bucket s3_key gcs_key s3_metadata s = (Return true, s', tr) ->
  (exists body ct replicated_at,
      tr = [GetObject s3_bucket s3_key; BodyOpened body;
            UploadFromFile gcs_key
              (provenance s3_bucket s3_key s3_metadata replicated_at) body ct 300;
            BodyClose body]) /\
  (forall stored s'',
      blob_reload gcs_key s' = (Return stored, s'') ->
      exists m,
        stored = Some m /\
        m !! "s3_etag" = Some (etag s3_metadata) /\
        m !! "s3_bucket" = Some s3_bucket /\
        m !! "s3_key" = Some s3_key).
Proof.
  intros Hkeeps Hrun.
  destruct (stream_upload_returned _ _ _ _ _ _ _ _ Hrun)
    as (s3_response & s1 & s2 & _ & Hup & _ & -> & ->).
  split; [eauto |].
  intros stored s'' Hre.
  rewrite (Hkeeps _ _ _ _ _ _ _ Hup _ _ Hre).
  eexists; split; [reflexivity |]. apply provenance_lookup.
Qed.


(** C9. Whatever happens in [_stream_upload], no stream is left open.  If
    [get_object] raises, no stream was handed out.  If it returns one, the
    stream is closed once, after the upload call, whether that call
    returned or raised: the close is the last call of the run, and the
    error of a failed upload is raised after it. *)
Theorem stream_upload_closes_body (s3_bucket s3_key gcs_key : string)
    (s3_metadata : S3Metadata) (s : E) :
  let r := _stream_upload s3_bucket s3_key gcs_key s3_metadata s in
  open_after (trace_of r) [] = [] /\
  match get_object s3_bucket s3_key s with
  | (Raise e, s1) =>
      r = (Raise e, s1, [GetObject s3_bucket s3_key])
  | (Return s3_response, s1) =>
      let body := Body s3_response in
      let '(o, s2) :=
        blob_upload_from_file gcs_key
          (provenance s3_bucket s3_key s3_metadata (time_strftime s1)) body
          (default "application/octet-stream" (ContentType s3_response)) 300 s1 in
      outcome_of r = match o with Return _ => Return true | Raise e => Raise e end /\
      state_of r = body_close body s2 /\
      last (trace_of r) = Some (BodyClose body) /\
      bodies_closed (trace_of r) = [body]
  end.
Proof.
  cbn zeta. rewrite stream_upload_run.
  destruct (get_object s3_bucket s3_key s) as [[s3_response|e] s1]; [|done].
  cbn zeta.
  destruct (blob_upload_from_file _ _ _ _ _ s1) as [[[]|e] s2];
    cbn; rewrite Nat.eqb_refl; done.
Qed.

End ServiceClaims.

Section Orchestration.

Context {E : Type} `{Clients E}.
Variable MAX_RETRIES : Z.
Variable GCS_BUCKET_NAME : string.

Lemma reraised_not_file_not_found (e : exn) (message : string) :
  reraised e <> FileNotFoundError message.
Proof. by destruct e. Qed.

Lemma reraised_retryable (e : exn) : retryable e = true -> reraised e = e.
Proof. by destruct e. Qed.

(** C1, as the code has it. Every invocation of [replicate] ends in one of
    three ways: it returns the ['skipped'] record, it returns the
    ['success'] record, or it raises; there is no record for a failure.
    An exception it raises is never [FileNotFoundError]: a source object
    the store reports as missing makes it raise [ValueError] with the
    not-found message, and whatever else a retry-wrapped step raises (a
    non-retryable error, or the last error once the attempts are used up)
    is raised as it is. *)
Theorem replicate_returns_or_raises (bucket key : string) :
  let run := replicate MAX_RETRIES GCS_BUCKET_NAME bucket key in
  let inspect := _get_s3_metadata bucket key in
  let gcs_key := gcs_key_of bucket key in
  let gcs_path := "gs://" +:+ GCS_BUCKET_NAME +:+ "/" +:+ gcs_key in
  (forall s,
      outcome_of (run s)
      = Return (Skipped "File already exists with same content" gcs_path) \/
      (exists size_bytes,
          outcome_of (run s)
          = Return (Succeeded "File replicated successfully"
                      ("s3://" +:+ bucket +:+ "/" +:+ key) gcs_path size_bytes)) \/
      (exists e,
          outcome_of (run s) = Raise e /\
          forall message, e <> FileNotFoundError message)) /\
  (forall s msg s1,
      1 <= MAX_RETRIES ->
      head_object bucket key s = (Raise (ClientError "404" msg), s1) ->
      outcome_of (run s)
      = Raise (ValueError ("S3 object not found: s3://" +:+ bucket +:+ "/" +:+ key))) /\
  (forall s e,
      outcome_of (_retry_with_backoff MAX_RETRIES inspect s) = Raise e ->
      outcome_of (run s) = Raise (reraised e)) /\
  (forall s s3_metadata s1 t1 s2 t2 e,
      _retry_with_backoff MAX_RETRIES inspect s = (Return (Some s3_metadata), s1, t1) ->
      _check_gcs_exists gcs_key (etag s3_metadata) s1 = (Return false, s2, t2) ->
      outcome_of (_retry_with_backoff MAX_RETRIES
                    (_stream_upload bucket key gcs_key s3_metadata) s2) = Raise e ->
      outcome_of (run s) = Raise (reraised e)) /\
  (forall s,
      1 <= MAX_RETRIES ->
      (forall n, (n < Z.to_nat MAX_RETRIES)%nat ->
         exists e,
           outcome_of (inspect (state_before_attempt inspect 0 n s)) = Raise e /\
           retryable e = true) ->
      exists e,
        retryable e = true /\
        outcome_of (inspect (state_before_attempt inspect 0
                               (Z.to_nat MAX_RETRIES - 1) s)) = Raise e /\
        outcome_of (run s) = Raise e).
Proof.
  cbn zeta. repeat apply conj.
  - intros s. rewrite replicate_run. cbn zeta.
    destruct (_retry_with_backoff MAX_RETRIES _ s)
      as [[[[s3_metadata|]|e] s1] t1].
    + destruct (_check_gcs_exists _ _ s1) as [[[[|]|e] s2] t2].
      * by left.
      * destruct (_retry_with_backoff MAX_RETRIES _ s2) as [[[a|e] s3] t3].
        -- right; left. by eexists.
        -- right; right. eexists; split; [done |].
           apply reraised_not_file_not_found.
      * right; right. eexists; split; [done |].
        apply reraised_not_file_not_found.
    + right; right. by eexists.
    + right; right. eexists; split; [done |].
      apply reraised_not_file_not_found.
  - intros s msg s1 Hmax Hhead. rewrite replicate_run. cbn zeta.
    unfold _retry_with_backoff, range.
    destruct (Z.to_nat MAX_RETRIES) as [|k] eqn:Hk; [lia |].
    change (seq 0 (S k)) with (0%nat :: seq 1 k). rewrite fmap_cons.
    rewrite (retry_loop_gives_up MAX_RETRIES _ _ _ s
               (FileNotFoundError
                  ("S3 object not found: s3://" +:+ bucket +:+ "/" +:+ key))
               s1 [HeadObject bucket key]); [done | | done].
    rewrite get_s3_metadata_run, Hhead. reflexivity.
  - intros s e. rewrite replicate_run. cbn zeta.
    destruct (_retry_with_backoff MAX_RETRIES _ s) as [[[a|e'] s1] t1];
      [done |].
    by intros [= ->].
  - intros s s3_metadata s1 t1 s2 t2 e Hinspect Hcheck.
    rewrite replicate_run. cbn zeta. rewrite Hinspect, Hcheck.
    destruct (_retry_with_backoff MAX_RETRIES _ s2) as [[[a|e'] s3] t3];
      [done |].
    by intros [= ->].
  - intros s Hmax Hfail.
    destruct (Z.to_nat MAX_RETRIES) as [|k] eqn:Hk; [lia |].
    replace (S k - 1)%nat with k by lia.
    destruct (retry_loop_all_fail MAX_RETRIES (_get_s3_metadata bucket key)
                k 0%nat s) as (_ & _ & (e & Hlast & Hraise) & _); [lia | |].
    { intros j Hj. apply Hfail. lia. }
    destruct (Hfail k) as (e' & Hlast' & He'); [lia |].
    rewrite Hlast in Hlast'. injection Hlast' as <-.
    exists e. split; [done |]. split; [done |].
    rewrite replicate_run. cbn zeta. unfold _retry_with_backoff, range.
    rewrite Hk.
    destruct (retry_loop MAX_RETRIES _ _ s) as [[o s1] t1].
    cbn in Hraise. subst o. cbn. by rewrite reraised_retryable.
Qed.

End Orchestration.

(** *** The destination key *)



(** * Runs on concrete stores *)

Lemma sim_keeps_metadata : keeps_metadata Sim.world.
Proof.
  intros gcs_key md body ct timeout s s1 Hup md' s2.
  cbn in Hup |- *.
  unfold Sim.sim_blob_upload_from_file, Sim.sim_blob_reload, Sim.faulty in *.
  assert (Hgcs : Sim.gcs s1 !! gcs_key
                 = Some {| Sim.metadata := Some md; Sim.content_type := ct |}).
  { destruct (Sim.faults s) as [|[e|] rest]; [| done |];
      injection Hup as <-; cbn; apply lookup_insert_eq. }
  cbn. destruct (Sim.faults s1) as [|[e|] rest]; [| done |];
    cbn; rewrite Hgcs; by intros [= <- _].
Qed.

(** C1, shown false as stated. For a source key the store does not hold,
    [replicate] returns no record at all: the [ValueError] leaves it.  With
    the stores down, the error of the third and last attempt leaves it. *)
Lemma replicate_failure_is_raised :
  outcome_of (replicate 3 "dest" "raw-logs" "missing.log" Sim.raw_logs)
  = Raise (ValueError "S3 object not found: s3://raw-logs/missing.log") /\
  ~ (exists result,
        outcome_of (replicate 3 "dest" "raw-logs" "missing.log" Sim.raw_logs)
        = Return result) /\
  outcome_of (replicate 3 "dest" "raw-logs" "2024/01/01.log" 0%nat)
  = Raise Outage.unavailable.
Proof.
  assert (Hraise :
            outcome_of (replicate 3 "dest" "raw-logs" "missing.log" Sim.raw_logs)
            = Raise (ValueError "S3 object not found: s3://raw-logs/missing.log")).
  { vm_compute. reflexivity. }
  split; [exact Hraise |]. split.
  - intros (result & Hret). rewrite Hraise in Hret. discriminate.
  - vm_compute. reflexivity.
Qed.

(** The missing key of the in-memory source, three attempts configured. *)
Lemma replicate_returns_or_raises_witness :
  1 <= 3 /\
  head_object "raw-logs" "missing.log" Sim.raw_logs
  = (Raise (ClientError "404" "Not Found"), Sim.raw_logs) /\
  outcome_of (replicate 3 "dest" "raw-logs" "missing.log" Sim.raw_logs)
  = Raise (ValueError ("S3 object not found: s3://" +:+ "raw-logs" +:+ "/" +:+ "missing.log")).
Proof.
  assert (Hmax : 1 <= 3) by lia.
  assert (Hhead : head_object "raw-logs" "missing.log" Sim.raw_logs
                  = (Raise (ClientError "404" "Not Found"), Sim.raw_logs)).
  { vm_compute. reflexivity. }
  split; [exact Hmax |]. split; [exact Hhead |].
  destruct (replicate_returns_or_raises (E := Sim.world) 3 "dest"
              "raw-logs" "missing.log") as (_ & Hmissing & _).
  exact (Hmissing Sim.raw_logs "Not Found" Sim.raw_logs Hmax Hhead).
Defined.

(** C2, shown false as stated. The source store refuses the inspection
    with status 403, a permission error; the wrapper calls the operation
    three times, waiting 1 and 2 in between, before it gives the error up. *)
Lemma forbidden_is_retried :
  permanent_remote_error Sim.forbidden = true /\
  outcome_of (_get_s3_metadata "raw-logs" "2024/01/01.log" Sim.forbidden_thrice)
  = Raise Sim.forbidden /\
  attempts_made
    (trace_of (_retry_with_backoff 3 (_get_s3_metadata "raw-logs" "2024/01/01.log")
                 Sim.forbidden_thrice)) = 3%nat /\
  sleeps
    (trace_of (_retry_with_backoff 3 (_get_s3_metadata "raw-logs" "2024/01/01.log")
                 Sim.forbidden_thrice)) = [1; 2] /\
  outcome_of (_retry_with_backoff 3 (_get_s3_metadata "raw-logs" "2024/01/01.log")
                Sim.forbidden_thrice) = Raise Sim.forbidden.
Proof. repeat split; vm_compute; reflexivity. Qed.

(** The inspection of a missing key raises [FileNotFoundError], which the
    wrapper lets through after the one call. *)
Lemma retry_rethrows_unlisted_error_witness :
  outcome_of (_get_s3_metadata "raw-logs" "missing.log" Sim.raw_logs)
  = Raise (FileNotFoundError "S3 object not found: s3://raw-logs/missing.log") /\
  retryable (FileNotFoundError "S3 object not found: s3://raw-logs/missing.log")
  = false /\
  1 <= 3 /\
  attempts_made
    (trace_of (_retry_with_backoff 3 (_get_s3_metadata "raw-logs" "missing.log")
                 Sim.raw_logs)) = 1%nat.
Proof.
  assert (Hraise :
            outcome_of (_get_s3_metadata "raw-logs" "missing.log" Sim.raw_logs)
            = Raise (FileNotFoundError
                       "S3 object not found: s3://raw-logs/missing.log")).
  { vm_compute. reflexivity. }
  assert (Hmax : 1 <= 3) by lia.
  split; [exact Hraise |]. split; [reflexivity |]. split; [exact Hmax |].
  destruct (retry_rethrows_unlisted_error 3
              (_get_s3_metadata "raw-logs" "missing.log") Sim.raw_logs _
              Hraise eq_refl) as [_ Hfirst].
  exact (proj1 (proj2 (Hfirst Hmax))).
Defined.

(** With the stores down, three attempts: the source has received three
    calls when the wrapper gives up, and the waits were 1 and 2. *)
Lemma retry_exhausts_on_transient_witness :
  1 <= 3 /\
  attempts_made
    (trace_of (_retry_with_backoff 3 (_get_s3_metadata "raw-logs" "2024/01/01.log")
                 0%nat)) = 3%nat /\
  sleeps
    (trace_of (_retry_with_backoff 3 (_get_s3_metadata "raw-logs" "2024/01/01.log")
                 0%nat)) = [1; 2] /\
  state_of (_retry_with_backoff 3 (_get_s3_metadata "raw-logs" "2024/01/01.log")
              0%nat) = 3%nat.
Proof.
  assert (Hmax : 1 <= 3) by lia.
  split; [exact Hmax |].
  destruct (retry_exhausts_on_transient 3
              (_get_s3_metadata "raw-logs" "2024/01/01.log") 0%nat Hmax)
    as (Hn & _ & _ & Hsleeps & _ & _ & Hstate).
  - intros n _. exists Outage.unavailable. split; reflexivity.
  - split; [exact Hn |]. split; [exact Hsleeps |]. exact Hstate.
Defined.

(** No attempt configured: nothing is called. *)
Lemma retry_without_attempts_returns_none_witness :
  0 <= 0 /\
  _retry_with_backoff 0 (_get_s3_metadata "raw-logs" "2024/01/01.log") Sim.raw_logs
  = (Return None, Sim.raw_logs, []).
Proof.
  assert (Hmax : 0 <= 0) by lia.
  split; [exact Hmax |].
  exact (retry_without_attempts_returns_none 0
           (_get_s3_metadata "raw-logs" "2024/01/01.log") Sim.raw_logs Hmax).
Defined.

(** The missing key again: one attempt, one [head_object], no wait. *)
Lemma missing_source_not_retried_witness :
  1 <= 3 /\
  head_object "raw-logs" "missing.log" Sim.raw_logs
  = (Raise (ClientError "404" "Not Found"), Sim.raw_logs) /\
  trace_of (replicate 3 "dest" "raw-logs" "missing.log" Sim.raw_logs)
  = [Attempt 0; Call (HeadObject "raw-logs" "missing.log")] /\
  sleeps (trace_of (replicate 3 "dest" "raw-logs" "missing.log" Sim.raw_logs)) = [].
Proof.
  assert (Hmax : 1 <= 3) by lia.
  assert (Hhead : head_object "raw-logs" "missing.log" Sim.raw_logs
                  = (Raise (ClientError "404" "Not Found"), Sim.raw_logs)).
  { vm_compute. reflexivity. }
  split; [exact Hmax |]. split; [exact Hhead |].
  destruct (missing_source_not_retried 3 "dest" "raw-logs" "missing.log"
              "Not Found" Sim.raw_logs Sim.raw_logs Hmax Hhead)
    as (_ & _ & _ & Htrace & _ & _ & Hsleeps & _).
  split; [exact Htrace | exact Hsleeps].
Defined.

(** The second replication of the same object: the destination holds the
    blob the first one wrote. *)
Lemma replicate_skips_identical_witness :
  _retry_with_backoff 3 (_get_s3_metadata "raw-logs" "2024/01/01.log")
    Sim.replicated_once
  = (Return (Some Sim.raw_logs_metadata), Sim.replicated_once,
     [Attempt 0; Call (HeadObject "raw-logs" "2024/01/01.log")]) /\
  outcome_of (replicate 3 "dest" "raw-logs" "2024/01/01.log" Sim.replicated_once)
  = Return (Skipped "File already exists with same content"
              ("gs://" +:+ "dest" +:+ "/" +:+ gcs_key_of "raw-logs" "2024/01/01.log")) /\
  transfer_calls
    (trace_of (replicate 3 "dest" "raw-logs" "2024/01/01.log" Sim.replicated_once))
  = [].
Proof.
  assert (Hinspect :
            _retry_with_backoff 3 (_get_s3_metadata "raw-logs" "2024/01/01.log")
              Sim.replicated_once
            = (Return (Some Sim.raw_logs_metadata), Sim.replicated_once,
               [Attempt 0; Call (HeadObject "raw-logs" "2024/01/01.log")])).
  { vm_compute. reflexivity. }
  assert (Hexists :
            blob_exists (gcs_key_of "raw-logs" "2024/01/01.log") Sim.replicated_once
            = (Return true, Sim.replicated_once)).
  { vm_compute. reflexivity. }
  assert (Hreload :
            blob_reload (gcs_key_of "raw-logs" "2024/01/01.log") Sim.replicated_once
            = (Return (Some (provenance "raw-logs" "2024/01/01.log"
                               Sim.raw_logs_metadata "2024-01-02 03:04:05")),
               Sim.replicated_once)).
  { vm_compute. reflexivity. }
  assert (Htag :
            provenance "raw-logs" "2024/01/01.log" Sim.raw_logs_metadata
              "2024-01-02 03:04:05" !! "s3_etag"
            = Some (etag Sim.raw_logs_metadata)).
  { vm_compute. reflexivity. }
  split; [exact Hinspect |].
  destruct (replicate_skips_identical 3 "dest" "raw-logs" "2024/01/01.log"
              _ _ _ _ _ _ _ Hinspect Hexists Hreload Htag)
    as (Hskipped & Hnone & _).
  split; [exact Hskipped | exact Hnone].
Defined.

(** One transfer into the empty in-memory destination, and the re-read of
    what it wrote. *)
Lemma stream_upload_provenance_witness :
  _stream_upload "raw-logs" "2024/01/01.log" "raw-logs/2024/01/01.log"
    Sim.raw_logs_metadata Sim.raw_logs
  = (Return true,
     state_of (_stream_upload "raw-logs" "2024/01/01.log" "raw-logs/2024/01/01.log"
                 Sim.raw_logs_metadata Sim.raw_logs),
     trace_of (_stream_upload "raw-logs" "2024/01/01.log" "raw-logs/2024/01/01.log"
                 Sim.raw_logs_metadata Sim.raw_logs)) /\
  exists m,
    outcome_of
      (remote (BlobReload "raw-logs/2024/01/01.log")
         (blob_reload "raw-logs/2024/01/01.log")
         (state_of (_stream_upload "raw-logs" "2024/01/01.log"
                      "raw-logs/2024/01/01.log" Sim.raw_logs_metadata Sim.raw_logs)))
    = Return (Some m) /\
    m !! "s3_etag" = Some "abc123" /\
    m !! "s3_bucket" = Some "raw-logs" /\
    m !! "s3_key" = Some "2024/01/01.log".
Proof.
  assert (Hrun :
            _stream_upload "raw-logs" "2024/01/01.log" "raw-logs/2024/01/01.log"
              Sim.raw_logs_metadata Sim.raw_logs
            = (Return true,
               state_of (_stream_upload "raw-logs" "2024/01/01.log"
                           "raw-logs/2024/01/01.log" Sim.raw_logs_metadata
                           Sim.raw_logs),
               trace_of (_stream_upload "raw-logs" "2024/01/01.log"
                           "raw-logs/2024/01/01.log" Sim.raw_logs_metadata
                           Sim.raw_logs))).
  { vm_compute. reflexivity. }
  split; [exact Hrun |].
  destruct (stream_upload_provenance _ _ _ _ _ _ _ sim_keeps_metadata Hrun)
    as [_ Hread].
  assert (Hre :
            blob_reload "raw-logs/2024/01/01.log"
              (state_of (_stream_upload "raw-logs" "2024/01/01.log"
                           "raw-logs/2024/01/01.log" Sim.raw_logs_metadata
                           Sim.raw_logs))
            = (Return (Some (provenance "raw-logs" "2024/01/01.log"
                               Sim.raw_logs_metadata "2024-01-02 03:04:05")),
               state_of (_stream_upload "raw-logs" "2024/01/01.log"
                           "raw-logs/2024/01/01.log" Sim.raw_logs_metadata
                           Sim.raw_logs))).
  { vm_compute. reflexivity. }
  destruct (Hread _ _ Hre) as (m & Hm & Hetag & Hbucket & Hkey).
  exists m. unfold remote. rewrite Hre, Hm.
  split; [reflexivity |]. split; [exact Hetag |]. split; [exact Hbucket | exact Hkey].
Defined.



(** The example of the specification: the first call copies the object,
    the second is skipped. *)
Example replicate_raw_logs :
  outcome_of (replicate 3 "dest" "raw-logs" "2024/01/01.log" Sim.raw_logs)
  = Return (Succeeded "File replicated successfully"
              "s3://raw-logs/2024/01/01.log"
              "gs://dest/raw-logs/2024/01/01.log" 4096) /\
  outcome_of (replicate 3 "dest" "raw-logs" "2024/01/01.log" Sim.replicated_once)
  = Return (Skipped "File already exists with same content"
              "gs://dest/raw-logs/2024/01/01.log").
Proof. split; vm_compute; reflexivity. Qed.

(** An upload that fails: the error is raised, and the store has no stream
    of the run left open. *)
Example stream_closed_when_upload_fails :
  outcome_of
    (_stream_upload "raw-logs" "2024/01/01.log" "raw-logs/2024/01/01.log"
       Sim.raw_logs_metadata
       (Sim.set_faults [None; Some (OtherException "OSError" "broken pipe")]
          Sim.raw_logs))
  = Raise (OtherException "OSError" "broken pipe") /\
  Sim.open_bodies
    (state_of
       (_stream_upload "raw-logs" "2024/01/01.log" "raw-logs/2024/01/01.log"
          Sim.raw_logs_metadata
          (Sim.set_faults [None; Some (OtherException "OSError" "broken pipe")]
             Sim.raw_logs)))
  = [].
Proof. split; vm_compute; reflexivity. Qed.

(** A destination that cannot be asked: the check answers [False], and
    the object is copied again. *)
Example check_fails_open :
  outcome_of
    (_check_gcs_exists "raw-logs/2024/01/01.log" "abc123"
       (Sim.set_faults [Some Outage.gcs_unavailable] Sim.replicated_once))
  = Return false /\
  status_of_run
    (replicate 3 "dest" "raw-logs" "2024/01/01.log"
       (Sim.set_faults [None; Some Outage.gcs_unavailable] Sim.replicated_once))
  = Some "success".
Proof. split; vm_compute; reflexivity. Qed.

(** With no attempt configured, [replicate] fails on the [None] it gets
    for the metadata. *)
Example replicate_without_attempts :
  replicate 0 "dest" "raw-logs" "2024/01/01.log" Sim.raw_logs
  = (Raise (TypeError "'NoneType' object is not subscriptable"), Sim.raw_logs, []).
Proof. reflexivity. Qed.

(** * Further properties *)

(** ** The retry wrapper, whatever the operation does *)

Section RetryWrapperMore.

Context {E : Type} `{Clients E}.
Variable MAX_RETRIES : Z.

Lemma schedule_cons_call (c : call) (t : list event) :
  schedule (Call c :: t) = schedule t.
Proof. reflexivity. Qed.

Lemma schedule_one_attempt (attempt : Z) (t1 : list call) :
  schedule (Attempt attempt :: (Call <$> t1)) = [Attempt attempt].
Proof. cbn. by rewrite schedule_calls. Qed.

Lemma backoff_schedule_head (attempt : Z) (rest : list Z) :
  [Attempt attempt] `prefix_of` backoff_schedule (attempt :: rest).
Proof.
  destruct rest as [|b rest]; [done |].
  rewrite backoff_schedule_cons. by apply prefix_cons, prefix_nil.
Qed.

(** Whatever the operation does, the loop follows the backoff schedule
    for as long as it runs. *)
Lemma retry_loop_schedule_prefix {A} (func : M E call A) :
  forall (n i : nat) (s : E),
    Z.of_nat (i + n) = Z.max MAX_RETRIES 0 ->
    schedule (trace_of (retry_loop MAX_RETRIES func (Z.of_nat <$> seq i n) s))
    `prefix_of` backoff_schedule (Z.of_nat <$> seq i n).
Proof.
  induction n as [|n IH]; intros i s Hmax; [by apply prefix_nil |].
  change (seq i (S n)) with (i :: seq (S i) n). rewrite fmap_cons.
  destruct (func s) as [[[a|e] s1] t1] eqn:Hf.
  - rewrite (retry_loop_returns MAX_RETRIES func _ _ _ _ _ _ Hf).
    unfold trace_of. cbn [snd]. rewrite schedule_one_attempt.
    apply backoff_schedule_head.
  - destruct (retryable e) eqn:He.
    + destruct (decide (Z.of_nat i = MAX_RETRIES - 1)) as [Heq|Hne].
      * rewrite (retry_loop_last MAX_RETRIES func _ _ _ _ _ _ Hf He Heq).
        unfold trace_of. cbn [snd]. rewrite schedule_one_attempt.
        apply backoff_schedule_head.
      * rewrite (retry_loop_again MAX_RETRIES func _ _ _ _ _ _ Hf He Hne).
        specialize (IH (S i) (time_sleep (2 ^ Z.of_nat i) s1)).
        destruct (retry_loop MAX_RETRIES func (Z.of_nat <$> seq (S i) n) _)
          as [[r s2] t2].
        unfold trace_of in *. cbn [snd] in *.
        destruct n as [|n]; [exfalso; lia |].
        change (seq (S i) (S n)) with (S i :: seq (S (S i)) n) in IH |- *.
        rewrite fmap_cons in IH |- *. rewrite backoff_schedule_cons.
        cbn [schedule]. rewrite schedule_app, schedule_calls. cbn [app schedule].
        do 2 apply prefix_cons. apply IH. lia.
    + rewrite (retry_loop_gives_up MAX_RETRIES func _ _ _ _ _ _ Hf He).
      unfold trace_of. cbn [snd]. rewrite schedule_one_attempt.
      apply backoff_schedule_head.
Qed.

Lemma attempts_made_app (t1 t2 : list event) :
  attempts_made (t1 ++ t2) = (attempts_made t1 + attempts_made t2)%nat.
Proof. induction t1 as [|[]]; cbn; lia. Qed.

Lemma sleeps_app (t1 t2 : list event) : sleeps (t1 ++ t2) = sleeps t1 ++ sleeps t2.
Proof. induction t1 as [|[]]; cbn; congruence. Qed.

Lemma sum_app (l1 l2 : list Z) :
  foldr Z.add 0 (l1 ++ l2) = foldr Z.add 0 l1 + foldr Z.add 0 l2.
Proof. induction l1; cbn; lia. Qed.

Lemma total_wait_app (t1 t2 : list event) :
  total_wait (t1 ++ t2) = total_wait t1 + total_wait t2.
Proof. unfold total_wait. by rewrite sleeps_app, sum_app. Qed.

Lemma total_wait_calls (t : list call) : total_wait (Call <$> t) = 0.
Proof. unfold total_wait. by rewrite <- sleeps_schedule, schedule_calls. Qed.

Lemma attempts_made_calls (t : list call) : attempts_made (Call <$> t) = 0%nat.
Proof. by rewrite <- attempts_made_schedule, schedule_calls. Qed.

Lemma sum_powers (k : nat) :
  foldr Z.add 0 ((fun attempt => 2 ^ attempt) <$> (Z.of_nat <$> seq 0 k))
  = 2 ^ Z.of_nat k - 1.
Proof.
  induction k as [|k IH]; [done |].
  rewrite seq_S, !fmap_app, sum_app, IH. cbn.
  rewrite Nat2Z.inj_succ, Z.pow_succ_r by lia. lia.
Qed.

Lemma sum_nonneg (l : list Z) : Forall (fun w => 0 <= w) l -> 0 <= foldr Z.add 0 l.
Proof. induction 1; cbn; lia. Qed.

Lemma sleeps_backoff_nonneg (attempts : list Z) :
  Forall (fun w => 0 <= w) (sleeps (backoff_schedule attempts)).
Proof.
  induction attempts as [|a [|b rest] IH]; [constructor | constructor |].
  rewrite backoff_schedule_cons. cbn [sleeps]. constructor; [|done].
  apply Z.pow_nonneg. lia.
Qed.

Lemma retry_loop_attempts_positive {A} (func : M E call A) attempt rest s :
  (1 <= attempts_made
          (trace_of (retry_loop MAX_RETRIES func (attempt :: rest) s)))%nat.
Proof.
  destruct (func s) as [[[a|e] s1] t1] eqn:Hf.
  - rewrite (retry_loop_returns MAX_RETRIES func _ _ _ _ _ _ Hf). cbn. lia.
  - destruct (retryable e) eqn:He.
    + destruct (decide (attempt = MAX_RETRIES - 1)) as [Heq|Hne].
      * rewrite (retry_loop_last MAX_RETRIES func _ _ _ _ _ _ Hf He Heq).
        cbn. lia.
      * rewrite (retry_loop_again MAX_RETRIES func _ _ _ _ _ _ Hf He Hne).
        destruct (retry_loop MAX_RETRIES func _ _) as [[r s2] t2]. cbn. lia.
    + rewrite (retry_loop_gives_up MAX_RETRIES func _ _ _ _ _ _ Hf He).
      cbn. lia.
Qed.

(** An operation that fails with retryable errors [k] times and then
    returns, with more than [k] attempts left. *)
Lemma retry_loop_recovers {A} (func : M E call A) :
  forall (k i n : nat) (s : E) (a : A),
    (k < n)%nat ->
    Z.of_nat (i + n) = MAX_RETRIES ->
    (forall j, (j < k)%nat ->
       exists e,
         outcome_of (func (state_before_attempt func i j s)) = Raise e /\
         retryable e = true) ->
    outcome_of (func (state_before_attempt func i k s)) = Return a ->
    let r := retry_loop MAX_RETRIES func (Z.of_nat <$> seq i n) s in
    outcome_of r = Return (Some a) /\
    state_of r = state_of (func (state_before_attempt func i k s)) /\
    schedule (trace_of r) = backoff_schedule (Z.of_nat <$> seq i (S k)) /\
    calls (trace_of r)
    = concat ((fun j => trace_of (func (state_before_attempt func i j s)))
                <$> seq 0 (S k)).
Proof.
  induction k as [|k IH]; intros i n s a Hk Hmax Hfail Hlast;
    (destruct n as [|n]; [lia |]);
    change (seq i (S n)) with (i :: seq (S i) n); rewrite fmap_cons.
  - cbn [state_before_attempt] in Hlast |- *.
    destruct (func s) as [[o s1] t1] eqn:Hf. cbn in Hlast. subst o.
    rewrite (retry_loop_returns MAX_RETRIES func _ _ _ _ _ _ Hf).
    cbn. by rewrite schedule_calls, calls_fmap, app_nil_r, Hf.
  - destruct (Hfail 0%nat) as (e & Hraise & He); [lia |].
    cbn [state_before_attempt] in Hraise.
    destruct (func s) as [[o s1] t1] eqn:Hf. cbn in Hraise. subst o.
    rewrite (retry_loop_again MAX_RETRIES func _ _ _ _ _ _ Hf He) by lia.
    assert (Hshift : forall j,
               state_before_attempt func i (S j) s
               = state_before_attempt func (S i) j
                   (time_sleep (2 ^ Z.of_nat i) s1)).
    { intros j. cbn [state_before_attempt]. by rewrite Hf. }
    specialize (IH (S i) n (time_sleep (2 ^ Z.of_nat i) s1) a).
    destruct (retry_loop MAX_RETRIES func (Z.of_nat <$> seq (S i) n)
                (time_sleep (2 ^ Z.of_nat i) s1)) as [[r s2] t2].
    destruct IH as (Hr & Hs & Hsched & Hcalls); [lia | lia | | |].
    { intros j Hj. rewrite <- Hshift. apply Hfail. lia. }
    { by rewrite <- Hshift. }
    change (trace_of (r, s2, t2)) with t2 in Hsched, Hcalls.
    change (outcome_of (r, s2, t2)) with r in Hr.
    change (state_of (r, s2, t2)) with s2 in Hs.
    unfold trace_of, outcome_of, state_of. cbn [fst snd].
    rewrite Hshift. split; [done |]. split; [done |]. split.
    + change (seq i (S (S k))) with (i :: S i :: seq (S (S i)) k).
      rewrite !fmap_cons, backoff_schedule_cons.
      cbn [schedule]. rewrite schedule_app, schedule_calls.
      cbn [schedule app]. by rewrite Hsched.
    + change (seq 0 (S (S k))) with (0%nat :: seq 1 (S k)).
      rewrite fmap_cons, <- (fmap_S_seq 0 (S k)), <- list_fmap_compose.
      cbn [calls concat]. rewrite calls_app, calls_fmap. cbn [calls].
      cbn [state_before_attempt]. rewrite Hf. cbn [snd]. f_equal.
      rewrite Hcalls. f_equal. apply list_fmap_ext. intros _ j _.
      unfold compose. by rewrite Hshift.
Qed.

Lemma retry_bounds {A} (func : M E call A) (s : E) :
  let r := _retry_with_backoff MAX_RETRIES func s in
  schedule (trace_of r) `prefix_of` backoff_schedule (range MAX_RETRIES) /\
  (Nat.min 1 (Z.to_nat MAX_RETRIES) <= attempts_made (trace_of r)
   <= Z.to_nat MAX_RETRIES)%nat /\
  0 <= total_wait (trace_of r) <= 2 ^ (Z.max MAX_RETRIES 1 - 1) - 1.
Proof.
  cbn zeta. unfold _retry_with_backoff, range.
  pose proof (retry_loop_schedule_prefix func (Z.to_nat MAX_RETRIES) 0%nat s)
    as Hprefix.
  destruct Hprefix as [k Hk]; [lia |].
  set (t := trace_of (retry_loop MAX_RETRIES func
                        (Z.of_nat <$> seq 0 (Z.to_nat MAX_RETRIES)) s)) in *.
  assert (Hn : (attempts_made t + attempts_made k = Z.to_nat MAX_RETRIES)%nat).
  { rewrite <- (attempts_made_schedule t), <- attempts_made_app, <- Hk.
    by rewrite attempts_made_backoff, length_fmap, length_seq. }
  assert (Hk0 : Forall (fun w => 0 <= w) (sleeps (schedule t) ++ sleeps k)).
  { rewrite <- sleeps_app, <- Hk. apply sleeps_backoff_nonneg. }
  apply Forall_app in Hk0 as [Ht0 Hk0].
  assert (Hw : total_wait t + foldr Z.add 0 (sleeps k)
               = 2 ^ (Z.max MAX_RETRIES 1 - 1) - 1).
  { unfold total_wait. rewrite <- (sleeps_schedule t), <- sum_app, <- sleeps_app, <- Hk.
    destruct (Z.to_nat MAX_RETRIES) as [|m] eqn:Hm.
    - cbn. replace (Z.max MAX_RETRIES 1 - 1) with 0 by lia. done.
    - rewrite sleeps_backoff, sum_powers. f_equal. f_equal. lia. }
  split; [by exists k |]. split; [split; [| lia] |].
  - subst t.
    destruct (Z.to_nat MAX_RETRIES) as [|m] eqn:Hm; [cbn; lia |].
    change (seq 0 (S m)) with (0%nat :: seq 1 m). rewrite fmap_cons.
    etrans; [| apply retry_loop_attempts_positive]. lia.
  - pose proof (sum_nonneg _ Hk0). pose proof (sum_nonneg _ Ht0) as Ht.
    rewrite sleeps_schedule in Ht. unfold total_wait in *. lia.
Qed.

(** X1. For every operation and every state, a run of the wrapper is an
    initial part of the backoff schedule: it makes at most [MAX_RETRIES]
    attempts (at least one when one is configured), and all its waits
    together are at most [2 ^ (MAX_RETRIES - 1) - 1] (none for a maximum
    below two). *)
Theorem retry_is_bounded {A} (func : M E call A) (s : E) :
  let r := _retry_with_backoff MAX_RETRIES func s in
  schedule (trace_of r) `prefix_of` backoff_schedule (range MAX_RETRIES) /\
  (Nat.min 1 (Z.to_nat MAX_RETRIES) <= attempts_made (trace_of r)
   <= Z.to_nat MAX_RETRIES)%nat /\
  0 <= total_wait (trace_of r) <= 2 ^ (Z.max MAX_RETRIES 1 - 1) - 1.
Proof. apply retry_bounds. Qed.

(** X2. An operation that fails with retryable errors [k] times and then
    returns, [k] being less than [MAX_RETRIES], is invoked [k + 1] times:
    the wrapper returns what the last invocation returned, in the state it
    left, after the waits 1, 2, ..., [2 ^ (k - 1)]. *)
Theorem retry_recovers {A} (func : M E call A) (s : E) (k : nat) (a : A) :
  (k < Z.to_nat MAX_RETRIES)%nat ->
  (forall j, (j < k)%nat ->
     exists e,
       outcome_of (func (state_before_attempt func 0 j s)) = Raise e /\
       retryable e = true) ->
  outcome_of (func (state_before_attempt func 0 k s)) = Return a ->
  let r := _retry_with_backoff MAX_RETRIES func s in
  outcome_of r = Return (Some a) /\
  state_of r = state_of (func (state_before_attempt func 0 k s)) /\
  attempts_made (trace_of r) = S k /\
  sleeps (trace_of r) = (fun attempt => 2 ^ attempt) <$> (Z.of_nat <$> seq 0 k) /\
  calls (trace_of r)
  = concat ((fun j => trace_of (func (state_before_attempt func 0 j s)))
              <$> seq 0 (S k)).
Proof.
  intros Hk Hfail Hlast.
  destruct (retry_loop_recovers func k 0%nat (Z.to_nat MAX_RETRIES) s a)
    as (Hr & Hs & Hsched & Hcalls); [lia | lia | done | done |].
  cbn zeta. unfold _retry_with_backoff, range.
  split; [done |]. split; [done |]. split; [| split; [| done]].
  - by rewrite <- attempts_made_schedule, Hsched, attempts_made_backoff,
      length_fmap, length_seq.
  - by rewrite <- sleeps_schedule, Hsched, sleeps_backoff.
Qed.

(** A loop that returns does so with the result of its last invocation,
    whose calls end the run. *)
Lemma retry_loop_returned_last {A} (func : M E call A) :
  forall (attempts : list Z) (s s' : E) (a : A) (t : list event),
    retry_loop MAX_RETRIES func attempts s = (Return (Some a), s', t) ->
    exists s0 t0 pre, func s0 = (Return a, s', t0) /\ t = pre ++ (Call <$> t0).
Proof.
  induction attempts as [|attempt rest IH]; intros s s' a t; [done |].
  destruct (func s) as [[[a0|e] s1] t1] eqn:Hf.
  - rewrite (retry_loop_returns MAX_RETRIES func _ _ _ _ _ _ Hf).
    intros [= <- <- <-]. by exists s, t1, [Attempt attempt].
  - destruct (retryable e) eqn:He.
    + destruct (decide (attempt = MAX_RETRIES - 1)) as [Heq|Hne].
      * by rewrite (retry_loop_last MAX_RETRIES func _ _ _ _ _ _ Hf He Heq).
      * rewrite (retry_loop_again MAX_RETRIES func _ _ _ _ _ _ Hf He Hne).
        destruct (retry_loop MAX_RETRIES func rest _) as [[r s2] t2] eqn:Hrest.
        intros [= -> -> <-].
        destruct (IH _ _ _ _ Hrest) as (s0 & t0 & pre & Hret & ->).
        exists s0, t0,
          (Attempt attempt :: (Call <$> t1) ++ Sleep (2 ^ attempt) :: pre).
        split; [done |]. cbn. by rewrite <- !app_assoc.
    + by rewrite (retry_loop_gives_up MAX_RETRIES func _ _ _ _ _ _ Hf He).
Qed.

(** X3. When the wrapper returns, it returns [None] exactly if no attempt
    is configured; otherwise it returns what the last invocation of the
    operation returned, in the state that invocation left, and the calls of
    that invocation are the last of the run: a returned value never comes
    from an invocation that was followed by another one. *)
Theorem retry_returns_last_invocation {A} (func : M E call A) (s s' : E)
    (o : option A) (t : list event) :
  _retry_with_backoff MAX_RETRIES func s = (Return o, s', t) ->
  (o = None <-> MAX_RETRIES <= 0) /\
  (forall a, o = Some a ->
     exists s0 t0 pre, func s0 = (Return a, s', t0) /\ t = pre ++ (Call <$> t0)).
Proof.
  intros Hrun. split.
  - destruct (retry_with_backoff_returned MAX_RETRIES func _ _ _ _ Hrun)
      as [(Hmax & -> & _) | (Hmax & a & s0 & t0 & -> & _)].
    + done.
    + split; [done | lia].
  - intros a ->. by apply (retry_loop_returned_last func _ _ _ _ _ Hrun).
Qed.

End RetryWrapperMore.

(** ** The transfer under the wrapper, and the whole replication *)

Section ReplicateMore.

Context {E : Type} `{Clients E}.
Variable MAX_RETRIES : Z.
Variable GCS_BUCKET_NAME : string.

Lemma open_after_app (t1 t2 : list call) (held : list StreamingBody) :
  open_after (t1 ++ t2) held = open_after t2 (open_after t1 held).
Proof.
  revert held. induction t1 as [|c t1 IH]; intros held; [done |].
  destruct c; cbn; apply IH.
Qed.

(** The calls of a run of the loop are the calls of its invocations of the
    operation, one invocation per attempt. *)
Lemma retry_loop_invocations {A} (func : M E call A) :
  forall (attempts : list Z) (s : E),
    exists states : list E,
      calls (trace_of (retry_loop MAX_RETRIES func attempts s))
      = concat ((fun s0 => trace_of (func s0)) <$> states) /\
      attempts_made (trace_of (retry_loop MAX_RETRIES func attempts s))
      = length states.
Proof.
  induction attempts as [|attempt rest IH]; intros s; [by exists [] |].
  destruct (func s) as [[[a|e] s1] t1] eqn:Hf.
  - rewrite (retry_loop_returns MAX_RETRIES func _ _ _ _ _ _ Hf).
    exists [s]. cbn. by rewrite calls_fmap, attempts_made_calls, Hf, app_nil_r.
  - destruct (retryable e) eqn:He.
    + destruct (decide (attempt = MAX_RETRIES - 1)) as [Heq|Hne].
      * rewrite (retry_loop_last MAX_RETRIES func _ _ _ _ _ _ Hf He Heq).
        exists [s]. cbn.
        by rewrite calls_fmap, attempts_made_calls, Hf, app_nil_r.
      * rewrite (retry_loop_again MAX_RETRIES func _ _ _ _ _ _ Hf He Hne).
        destruct (IH (time_sleep (2 ^ attempt) s1)) as (states & Hcalls & Hn).
        destruct (retry_loop MAX_RETRIES func rest _) as [[r s2] t2].
        exists (s :: states). cbn in Hcalls, Hn |- *.
        rewrite calls_app, calls_fmap, attempts_made_app, attempts_made_calls.
        cbn. by rewrite Hf, Hcalls, Hn.
    + rewrite (retry_loop_gives_up MAX_RETRIES func _ _ _ _ _ _ Hf He).
      exists [s]. cbn. by rewrite calls_fmap, attempts_made_calls, Hf, app_nil_r.
Qed.

Lemma stream_upload_trace_shape (s3_bucket s3_key gcs_key : string)
    (s3_metadata : S3Metadata) (s : E) :
  let tr := trace_of (_stream_upload s3_bucket s3_key gcs_key s3_metadata s) in
  List.filter is_get_object tr = [GetObject s3_bucket s3_key] /\
  (length (List.filter is_upload tr) <= 1)%nat /\
  List.filter is_head_object tr = [] /\
  open_after tr [] = [].
Proof.
  cbn zeta. rewrite stream_upload_run.
  destruct (get_object s3_bucket s3_key s) as [[s3_response|e] s1];
    [| cbn; repeat split; lia].
  cbn zeta.
  destruct (blob_upload_from_file _ _ _ _ _ s1) as [[[]|e] s2];
    cbn; rewrite Nat.eqb_refl; repeat split; lia.
Qed.

Lemma transfer_retry_shape (s3_bucket s3_key gcs_key : string)
    (s3_metadata : S3Metadata) (s : E) :
  let t := trace_of (_retry_with_backoff MAX_RETRIES
                       (_stream_upload s3_bucket s3_key gcs_key s3_metadata) s) in
  List.filter is_get_object (calls t)
  = repeat (GetObject s3_bucket s3_key) (attempts_made t) /\
  (length (List.filter is_upload (calls t)) <= attempts_made t)%nat /\
  List.filter is_head_object (calls t) = [] /\
  open_after (calls t) [] = [].
Proof.
  cbn zeta. unfold _retry_with_backoff.
  destruct (retry_loop_invocations
              (_stream_upload s3_bucket s3_key gcs_key s3_metadata)
              (range MAX_RETRIES) s) as (states & -> & ->).
  induction states as [|s0 states (IH1 & IH2 & IH3 & IH4)]; [done |].
  destruct (stream_upload_trace_shape s3_bucket s3_key gcs_key s3_metadata s0)
    as (Hget & Hup & Hhead & Hopen).
  cbn [fmap list_fmap concat length repeat].
  rewrite !List.filter_app, open_after_app, Hget, Hhead, Hopen, length_app.
  split; [by rewrite IH1 |]. split; [lia | done].
Qed.


(** The parts of a run of [replicate]: the inspection, then possibly the
    existence check, then possibly the transfer. *)
Lemma replicate_trace_parts (bucket key : string) (s : E) :
  exists (t2 : list call) (t3 : list event),
    trace_of (replicate MAX_RETRIES GCS_BUCKET_NAME bucket key s)
    = trace_of (_retry_with_backoff MAX_RETRIES (_get_s3_metadata bucket key) s)
      ++ (Call <$> t2) ++ t3 /\
    Forall (fun c => c = BlobExists (gcs_key_of bucket key) \/
                     c = BlobReload (gcs_key_of bucket key)) t2 /\
    (t3 = [] \/
     exists s3_metadata s2,
       t3 = trace_of (_retry_with_backoff MAX_RETRIES
                        (_stream_upload bucket key (gcs_key_of bucket key)
                           s3_metadata) s2)).
Proof.
  rewrite replicate_run. cbn zeta.
  destruct (_retry_with_backoff MAX_RETRIES (_get_s3_metadata bucket key) s)
    as [[[[s3_metadata|]|e] s1] t1];
    [| exists [], []; cbn; rewrite app_nil_r; by eauto ..].
  pose proof (check_gcs_exists_run (gcs_key_of bucket key) (etag s3_metadata) s1)
    as Hcheck.
  assert (Ht2 : Forall (fun c => c = BlobExists (gcs_key_of bucket key) \/
                                 c = BlobReload (gcs_key_of bucket key))
                  (trace_of (_check_gcs_exists (gcs_key_of bucket key)
                               (etag s3_metadata) s1))).
  { rewrite Hcheck.
    destruct (blob_exists _ s1) as [[[|]|e] s2];
      [destruct (blob_reload _ s2) as [[metadata|e] s3] | |];
      cbn; repeat constructor; by eauto. }
  clear Hcheck.
  destruct (_check_gcs_exists _ _ s1) as [[[[|]|e] s2] t2] eqn:Hc;
    cbn in Ht2.
  - exists t2, []. cbn. rewrite app_nil_r. by eauto.
  - exists t2,
      (trace_of (_retry_with_backoff MAX_RETRIES
                   (_stream_upload bucket key (gcs_key_of bucket key)
                      s3_metadata) s2)).
    split; [| by eauto].
    by destruct (_retry_with_backoff MAX_RETRIES _ s2) as [[[a|e] s3] t3].
  - exists t2, []. cbn. rewrite app_nil_r. by eauto.
Qed.

Lemma inspection_calls (bucket key : string) (s : E) :
  let t := trace_of (_retry_with_backoff MAX_RETRIES
                       (_get_s3_metadata bucket key) s) in
  calls t = repeat (HeadObject bucket key) (attempts_made t).
Proof.
  cbn zeta. unfold _retry_with_backoff.
  destruct (retry_loop_invocations (_get_s3_metadata bucket key)
              (range MAX_RETRIES) s) as (states & -> & ->).
  induction states as [|s0 states IH]; [done |].
  cbn [fmap list_fmap concat length repeat].
  by rewrite get_s3_metadata_trace, IH.
Qed.

Lemma open_after_repeat_head (bucket key : string) (n : nat) held :
  open_after (repeat (HeadObject bucket key) n) held = held.
Proof. induction n; [done | by cbn]. Qed.

Lemma open_after_check (gcs_key : string) (t2 : list call) :
  Forall (fun c => c = BlobExists gcs_key \/ c = BlobReload gcs_key) t2 ->
  open_after t2 [] = [] /\
  List.filter is_get_object t2 = [] /\
  List.filter is_head_object t2 = [] /\
  List.filter is_upload t2 = [].
Proof.
  induction 1 as [|c t2 [-> | ->] _ IH]; [done | by cbn | by cbn].
Qed.

(** X5. A run of [replicate], however it ends, leaves no stream of the
    source open. *)
Theorem replicate_leaves_no_stream_open (bucket key : string) (s : E) :
  open_after (calls (trace_of (replicate MAX_RETRIES GCS_BUCKET_NAME bucket key s)))
    [] = [].
Proof.
  destruct (replicate_trace_parts bucket key s) as (t2 & t3 & -> & Ht2 & Ht3).
  rewrite !calls_app, calls_fmap, !open_after_app, inspection_calls,
    open_after_repeat_head.
  destruct (open_after_check _ _ Ht2) as (-> & _).
  destruct Ht3 as [-> | (s3_metadata & s2 & ->)]; [done |].
  apply transfer_retry_shape.
Qed.

Lemma retry_loop_first_invocation {A} (func : M E call A) attempt rest s :
  exists post,
    trace_of (retry_loop MAX_RETRIES func (attempt :: rest) s)
    = Attempt attempt :: (Call <$> trace_of (func s)) ++ post.
Proof.
  destruct (func s) as [[[a|e] s1] t1] eqn:Hf.
  - rewrite (retry_loop_returns MAX_RETRIES func _ _ _ _ _ _ Hf).
    exists []. cbn. by rewrite app_nil_r.
  - destruct (retryable e) eqn:He.
    + destruct (decide (attempt = MAX_RETRIES - 1)) as [Heq|Hne].
      * rewrite (retry_loop_last MAX_RETRIES func _ _ _ _ _ _ Hf He Heq).
        exists []. cbn. by rewrite app_nil_r.
      * rewrite (retry_loop_again MAX_RETRIES func _ _ _ _ _ _ Hf He Hne).
        destruct (retry_loop MAX_RETRIES func rest _) as [[r s2] t2].
        by exists (Sleep (2 ^ attempt) :: t2).
    + rewrite (retry_loop_gives_up MAX_RETRIES func _ _ _ _ _ _ Hf He).
      exists []. cbn. by rewrite app_nil_r.
Qed.

Lemma stream_upload_own_calls (bucket key : string) (s3_metadata : S3Metadata)
    (s : E) :
  Forall (own_call bucket key)
    (trace_of (_stream_upload bucket key (gcs_key_of bucket key) s3_metadata s)).
Proof.
  rewrite stream_upload_run.
  destruct (get_object bucket key s) as [[s3_response|e] s1];
    [| by repeat constructor].
  cbn zeta.
  destruct (provenance_lookup bucket key (time_strftime s1) s3_metadata)
    as (_ & Hb & Hk).
  destruct (blob_upload_from_file _ _ _ _ _ s1) as [[[]|e] s2];
    cbn; by repeat constructor.
Qed.

(** X6. [replicate bucket key] touches nothing but its own object: every
    source call is for that bucket and key, every destination call is for
    the key [bucket/key], and every upload carries provenance metadata
    naming that bucket and key, with the timeout of 300. *)
Theorem replicate_touches_only_its_object (bucket key : string) (s : E) :
  Forall (own_call bucket key)
    (calls (trace_of (replicate MAX_RETRIES GCS_BUCKET_NAME bucket key s))).
Proof.
  destruct (replicate_trace_parts bucket key s) as (t2 & t3 & -> & Ht2 & Ht3).
  rewrite !calls_app, calls_fmap, !Forall_app. split; [| split].
  - apply retry_loop_calls. intros s0. rewrite get_s3_metadata_trace.
    by repeat constructor.
  - eapply Forall_impl; [exact Ht2 |]. by intros c [-> | ->].
  - destruct Ht3 as [-> | (s3_metadata & s2 & ->)]; [constructor |].
    apply retry_loop_calls. intros s0. apply stream_upload_own_calls.
Qed.

Lemma length_filter_repeat_same (p : call -> bool) (c : call) (n : nat) :
  p c = true -> length (List.filter p (repeat c n)) = n.
Proof. intros Hp. induction n; cbn; [done |]. rewrite Hp. cbn. lia. Qed.

Lemma filter_repeat_other (p : call -> bool) (c : call) (n : nat) :
  p c = false -> List.filter p (repeat c n) = [].
Proof. intros Hp. induction n; cbn; [done |]. by rewrite Hp. Qed.

(** X7. A run of [replicate] is bounded, whatever the stores do: at most
    [MAX_RETRIES] inspections of the source, at most [MAX_RETRIES]
    [get_object] calls and as many uploads, at most twice [MAX_RETRIES]
    attempts in all, and a total wait of at most twice
    [2 ^ (MAX_RETRIES - 1) - 1]. *)
Theorem replicate_is_bounded (bucket key : string) (s : E) :
  let t := trace_of (replicate MAX_RETRIES GCS_BUCKET_NAME bucket key s) in
  (attempts_made t <= 2 * Z.to_nat MAX_RETRIES)%nat /\
  (length (inspections t) <= Z.to_nat MAX_RETRIES)%nat /\
  (length (List.filter is_get_object (calls t)) <= Z.to_nat MAX_RETRIES)%nat /\
  (length (List.filter is_upload (calls t)) <= Z.to_nat MAX_RETRIES)%nat /\
  0 <= total_wait t <= 2 * (2 ^ (Z.max MAX_RETRIES 1 - 1) - 1).
Proof.
  cbn zeta. unfold inspections.
  destruct (replicate_trace_parts bucket key s) as (t2 & t3 & -> & Ht2 & Ht3).
  destruct (open_after_check _ _ Ht2) as (_ & Hg2 & Hh2 & Hu2).
  destruct (retry_bounds MAX_RETRIES (_get_s3_metadata bucket key) s)
    as (_ & [_ Ha1] & Hw1).
  rewrite !attempts_made_app, !total_wait_app, !calls_app, calls_fmap,
    !List.filter_app, !length_app, attempts_made_calls, total_wait_calls,
    inspection_calls, Hg2, Hh2, Hu2.
  rewrite (length_filter_repeat_same is_head_object) by done.
  rewrite (filter_repeat_other is_get_object), (filter_repeat_other is_upload)
    by done.
  cbn [length]. cbn zeta in Ha1, Hw1.
  destruct Ht3 as [-> | (s3_metadata & s2 & ->)].
  - change (total_wait []) with 0. cbn -[total_wait]. lia.
  - destruct (retry_bounds MAX_RETRIES
                (_stream_upload bucket key (gcs_key_of bucket key) s3_metadata) s2)
      as (_ & [_ Ha3] & Hw3).
    destruct (transfer_retry_shape bucket key (gcs_key_of bucket key)
                s3_metadata s2) as (Hg3 & Hu3 & Hh3 & _).
    cbn zeta in Ha3, Hw3, Hg3, Hu3, Hh3.
    rewrite Hg3, Hh3, repeat_length. cbn [length]. lia.
Qed.

(** X8. With a maximum retry count of zero or less [replicate] cannot work:
    for every bucket and key it raises the [TypeError] of subscripting
    [None], without a single remote call. *)
Theorem replicate_without_attempts_fails (bucket key : string) (s : E) :
  MAX_RETRIES <= 0 ->
  replicate MAX_RETRIES GCS_BUCKET_NAME bucket key s
  = (Raise (TypeError "'NoneType' object is not subscriptable"), s, []).
Proof.
  intros Hmax. rewrite replicate_run. cbn zeta.
  unfold _retry_with_backoff, range.
  replace (Z.to_nat MAX_RETRIES) with 0%nat by lia. reflexivity.
Qed.

(** X9. Whenever the inspection has returned metadata and the existence
    check answers [False] (the object is absent, its tag differs or is
    missing, or the check failed), [replicate] does not skip: the transfer
    starts, its [get_object] being the next call after the check. *)
Theorem replicate_copies_unless_match (bucket key : string) (s s1 : E)
    (s3_metadata : S3Metadata) (t1 : list event) :
  _retry_with_backoff MAX_RETRIES (_get_s3_metadata bucket key) s
  = (Return (Some s3_metadata), s1, t1) ->
  outcome_of (_check_gcs_exists (gcs_key_of bucket key) (etag s3_metadata) s1)
  = Return false ->
  let r := replicate MAX_RETRIES GCS_BUCKET_NAME bucket key s in
  (forall message gcs_path, outcome_of r <> Return (Skipped message gcs_path)) /\
  exists post,
    calls (trace_of r)
    = calls t1
      ++ trace_of (_check_gcs_exists (gcs_key_of bucket key) (etag s3_metadata) s1)
      ++ GetObject bucket key :: post.
Proof.
  intros Hinspect Hcheck. cbn zeta. rewrite replicate_run. cbn zeta.
  rewrite Hinspect.
  destruct (retry_with_backoff_returned MAX_RETRIES _ _ _ _ _ Hinspect)
    as [(_ & ? & _) | (Hmax & _)]; [done |].
  destruct (_check_gcs_exists _ _ s1) as [[o s2] t2]. cbn in Hcheck. subst o.
  assert (Hfirst : exists post,
             calls (trace_of (_retry_with_backoff MAX_RETRIES
                                (_stream_upload bucket key (gcs_key_of bucket key)
                                   s3_metadata) s2))
             = GetObject bucket key :: post).
  { unfold _retry_with_backoff, range.
    destruct (Z.to_nat MAX_RETRIES) as [|m] eqn:Hm; [lia |].
    change (seq 0 (S m)) with (0%nat :: seq 1 m). rewrite fmap_cons.
    destruct (retry_loop_first_invocation
                (_stream_upload bucket key (gcs_key_of bucket key) s3_metadata)
                (Z.of_nat 0) (Z.of_nat <$> seq 1 m) s2) as (post & ->).
    cbn [calls]. rewrite calls_app, calls_fmap, stream_upload_run.
    destruct (get_object bucket key s2) as [[s3_response|e] s3]; [| by eauto].
    cbn zeta. destruct (blob_upload_from_file _ _ _ _ _ s3) as [[[]|e] s4];
      by eauto. }
  destruct Hfirst as (post & Hpost).
  destruct (_retry_with_backoff MAX_RETRIES (_stream_upload _ _ _ _) s2)
    as [[[a|e] s3] t3]; cbn in Hpost |- *;
    (split; [done |]); exists post;
    by rewrite !calls_app, calls_fmap, Hpost.
Qed.

(** X10. [replicate] returns the ['success'] record only after an upload
    that went through: the run ends with the calls of one whole transfer
    ([get_object], the upload to [bucket/key] with the provenance of the
    inspected metadata, the close), the upload call returned, and the
    record carries the fixed message, the two paths, and the size the
    inspection read, not one measured after the upload. *)
Theorem replicate_success_means_uploaded (bucket key : string) (s s' : E)
    (t : list event) (message s3_path gcs_path : string) (size_bytes : Z) :
  replicate MAX_RETRIES GCS_BUCKET_NAME bucket key s
  = (Return (Succeeded message s3_path gcs_path size_bytes), s', t) ->
  message = "File replicated successfully" /\
  s3_path = "s3://" +:+ bucket +:+ "/" +:+ key /\
  gcs_path = "gs://" +:+ GCS_BUCKET_NAME +:+ "/" +:+ gcs_key_of bucket key /\
  exists s3_metadata s1 t1 s3_response u1 u2 pre,
    let body := Body s3_response in
    let metadata := provenance bucket key s3_metadata (time_strftime u1) in
    let ct := default "application/octet-stream" (ContentType s3_response) in
    _retry_with_backoff MAX_RETRIES (_get_s3_metadata bucket key) s
    = (Return (Some s3_metadata), s1, t1) /\
    size_bytes = size s3_metadata /\
    blob_upload_from_file (gcs_key_of bucket key) metadata body ct 300 u1
    = (Return tt, u2) /\
    s' = body_close body u2 /\
    calls t = pre ++ [GetObject bucket key; BodyOpened body;
                      UploadFromFile (gcs_key_of bucket key) metadata body ct 300;
                      BodyClose body].
Proof.
  rewrite replicate_run. cbn zeta.
  destruct (_retry_with_backoff MAX_RETRIES (_get_s3_metadata bucket key) s)
    as [[[[s3_metadata|]|e] s1] t1] eqn:Hinspect; [| done..].
  destruct (_check_gcs_exists _ _ s1) as [[[[|]|e] s2] t2]; [done | | done].
  destruct (_retry_with_backoff MAX_RETRIES (_stream_upload _ _ _ _) s2)
    as [[[o|e] s3] t3] eqn:Htransfer; [| done].
  intros [= <- <- <- <- <- <-]. do 3 (split; [done |]).
  destruct (retry_with_backoff_returned MAX_RETRIES _ _ _ _ _ Hinspect)
    as [(_ & ? & _) | (Hmax & _)]; [done |].
  destruct (retry_with_backoff_returned MAX_RETRIES _ _ _ _ _ Htransfer)
    as [(? & _) | (_ & a & _ & _ & -> & _)]; [lia |].
  destruct (retry_loop_returned_last MAX_RETRIES _ _ _ _ _ _ Htransfer)
    as (s0 & t0 & pre & Hup & ->).
  destruct (stream_upload_returned _ _ _ _ _ _ _ _ Hup)
    as (s3_response & u1 & u2 & _ & Hwrite & _ & -> & ->).
  exists s3_metadata, s1, t1, s3_response, u1, u2,
    (calls t1 ++ t2 ++ calls pre).
  cbn zeta. do 4 (split; [done |]).
  by rewrite !calls_app, !calls_fmap, <- !app_assoc.
Qed.

End ReplicateMore.

(** ** The tag the inspection returns *)

Section Strip.

Lemma string_app_cons (a : ascii) (s t : string) :
  String a s +:+ t = String a (s +:+ t).
Proof. reflexivity. Qed.

Lemma string_app_nil_r (s : string) : s +:+ "" = s.
Proof.
  induction s as [|a s IH]; [done |]. by rewrite string_app_cons, IH.
Qed.

Lemma string_app_assoc (s1 s2 s3 : string) :
  (s1 +:+ s2) +:+ s3 = s1 +:+ (s2 +:+ s3).
Proof.
  induction s1 as [|a s1 IH]; [done |]. by rewrite !string_app_cons, IH.
Qed.

Lemma rev_app_app (s1 s2 : string) :
  String.rev_app s1 s2 = String.rev s1 +:+ s2.
Proof.
  unfold String.rev. revert s2.
  induction s1 as [|a s1 IH]; intros s2; [done |].
  cbn [String.rev_app].
  by rewrite (IH (String a "")), (IH (String a s2)), string_app_assoc.
Qed.

Lemma rev_cons (a : ascii) (s : string) :
  String.rev (String a s) = String.rev s +:+ String a "".
Proof. unfold String.rev at 1. cbn [String.rev_app]. apply rev_app_app. Qed.

Lemma rev_snoc (a : ascii) (s : string) :
  String.rev (s +:+ String a "") = String a (String.rev s).
Proof.
  induction s as [|b s IH]; [done |].
  by rewrite string_app_cons, !rev_cons, IH.
Qed.

Lemma rev_involutive (s : string) : String.rev (String.rev s) = s.
Proof.
  induction s as [|a s IH]; [done |]. by rewrite rev_cons, rev_snoc, IH.
Qed.

Lemma lstrip_starts (c : ascii) (s : string) :
  starts_with c (lstrip c s) = false.
Proof.
  induction s as [|a s IH]; [done |]. cbn [lstrip].
  destruct (Ascii.eqb a c) eqn:Ha; [done |]. cbn. by rewrite Ha.
Qed.

Lemma lstrip_id (c : ascii) (s : string) :
  starts_with c s = false -> lstrip c s = s.
Proof. destruct s as [|a s]; [done |]. cbn. by intros ->. Qed.

Lemma lstrip_snoc (c a : ascii) (s : string) :
  lstrip c (s +:+ String a "")
  = match lstrip c s with
    | EmptyString => if Ascii.eqb a c then EmptyString else String a ""
    | z => z +:+ String a ""
    end.
Proof.
  induction s as [|b s IH]; [done |].
  rewrite string_app_cons. cbn [lstrip].
  destruct (Ascii.eqb b c); [exact IH | done].
Qed.

Lemma rstrip_cons (c a : ascii) (s : string) :
  rstrip c (String a s)
  = match rstrip c s with
    | EmptyString => if Ascii.eqb a c then EmptyString else String a ""
    | z => String a z
    end.
Proof.
  unfold rstrip. rewrite rev_cons, lstrip_snoc.
  destruct (lstrip c (String.rev s)) as [|b z]; [by destruct (Ascii.eqb a c) |].
  rewrite rev_snoc.
  destruct (String.rev (String b z)) as [|b' z'] eqn:Hrev; [|done].
  apply (f_equal String.rev) in Hrev. by rewrite rev_involutive in Hrev.
Qed.

Lemma rstrip_ends (c : ascii) (s : string) : ends_with c (rstrip c s) = false.
Proof. unfold ends_with, rstrip. rewrite rev_involutive. apply lstrip_starts. Qed.

Lemma rstrip_id (c : ascii) (s : string) :
  ends_with c s = false -> rstrip c s = s.
Proof.
  unfold ends_with, rstrip. intros Hs. by rewrite lstrip_id, rev_involutive.
Qed.

Lemma rstrip_starts (c : ascii) (s : string) :
  starts_with c s = false -> starts_with c (rstrip c s) = false.
Proof.
  destruct s as [|a s]; [done |]. cbn [starts_with]. intros Ha.
  rewrite rstrip_cons.
  destruct (rstrip c s); [by rewrite Ha | by cbn].
Qed.

Lemma rstrip_snoc_same (c : ascii) (s : string) :
  rstrip c (s +:+ String c "") = rstrip c s.
Proof.
  unfold rstrip. rewrite rev_snoc. cbn [lstrip]. by rewrite Ascii.eqb_refl.
Qed.

(** What [strip] leaves has the character at neither end, and a string
    that has it at neither end is left as it is, also after one pair of
    the character was put around it. *)
Lemma strip_clean (c : ascii) (s : string) :
  starts_with c (strip c s) = false /\ ends_with c (strip c s) = false.
Proof.
  unfold strip. split; [| apply rstrip_ends].
  apply rstrip_starts, lstrip_starts.
Qed.

Lemma strip_wrapped (c : ascii) (t : string) :
  starts_with c t = false -> ends_with c t = false ->
  strip c t = t /\ strip c (String c t +:+ String c "") = t.
Proof.
  intros Hs He. unfold strip. split.
  - by rewrite lstrip_id, rstrip_id.
  - rewrite string_app_cons. cbn [lstrip]. rewrite Ascii.eqb_refl.
    rewrite lstrip_snoc, (lstrip_id c t Hs).
    destruct t as [|a t].
    + rewrite Ascii.eqb_refl. done.
    + by rewrite rstrip_snoc_same, rstrip_id.
Qed.

End Strip.

Section InspectionMore.

Context {E : Type} `{Clients E}.

(** X11. The tag in the metadata the inspection returns is the source's
    [ETag] without the double quotes around it: it neither starts nor ends
    with a double quote, an [ETag] that S3 sends as a tag in one pair of
    quotes gives exactly that tag, and a tag sent without quotes is kept.
    A response without [ETag] gives the empty tag, one without
    [ContentLength] the size 0. *)
Theorem inspection_normalizes_tag (bucket key : string) (s s1 : E)
    (response : HeadObjectOutput) :
  head_object bucket key s = (Return response, s1) ->
  exists s3_metadata,
    _get_s3_metadata bucket key s = (Return s3_metadata, s1, [HeadObject bucket key]) /\
    starts_with dquote (etag s3_metadata) = false /\
    ends_with dquote (etag s3_metadata) = false /\
    (forall t,
        starts_with dquote t = false -> ends_with dquote t = false ->
        (ETag response = Some (Sim.quoted t) -> etag s3_metadata = t) /\
        (ETag response = Some t -> etag s3_metadata = t)) /\
    (ETag response = None -> etag s3_metadata = "") /\
    size s3_metadata = default 0 (ContentLength response) /\
    last_modified s3_metadata = LastModified response.
Proof.
  intros Hhead. eexists. rewrite get_s3_metadata_run, Hhead.
  split; [reflexivity |]. cbn [etag size last_modified].
  destruct (strip_clean dquote (default "" (ETag response))) as [Hs He].
  split; [done |]. split; [done |]. split; [| split; [by intros -> | done]].
  intros t Ht1 Ht2. destruct (strip_wrapped dquote t Ht1 Ht2) as [Hid Hq].
  split; by intros ->.
Qed.

End InspectionMore.

(** ** The route *)

Section RoutesMore.

Context {E : Type} `{Clients E}.
Variable MAX_RETRIES : Z.
Variable GCS_BUCKET_NAME : string.
Variable replicate_untyped : pyvalue -> pyvalue -> M E event ReplicationResult.

(** The route, case by case. *)
Lemma replicate_endpoint_run (request : Request) (s : E) :
  replicate_endpoint MAX_RETRIES GCS_BUCKET_NAME replicate_untyped request s
  = if negb (is_json request) then
      (Return (ErrorBody "Content-Type must be application/json", 400), s, [])
    else
      match get_json request with
      | Raise e => (Return (error_response e), s, [])
      | Return (JsonOther type_name) =>
          (Return (error_response
                     (OtherException "AttributeError"
                        ("'" +:+ type_name +:+ "' object has no attribute 'get'"))),
           s, [])
      | Return (JsonObject fields) =>
          let s3_bucket := default PyNone (fields !! "s3_bucket") in
          let s3_key := default PyNone (fields !! "s3_key") in
          if negb (truthy s3_bucket) || negb (truthy s3_key) then
            (Return (ErrorBody "Missing required fields: s3_bucket and s3_key", 400),
             s, [])
          else
            match service_replicate MAX_RETRIES GCS_BUCKET_NAME replicate_untyped
                    s3_bucket s3_key s with
            | (Return result, s1, t1) => (Return (ResultBody result, 200), s1, t1)
            | (Raise e, s1, t1) => (Return (error_response e), s1, t1)
            end
      end.
Proof.
  unfold replicate_endpoint, try_except.
  destruct (is_json request); [| done]. cbn [negb]. unfold bind at 1.
  destruct (get_json request) as [[fields|type_name]|e].
  - unfold dict_get, bind, ret. cbn zeta.
    destruct (negb (truthy (default PyNone (fields !! "s3_bucket")))
              || negb (truthy (default PyNone (fields !! "s3_key")))); [done |].
    destruct (service_replicate _ _ _ _ _ s) as [[[result|e] s1] t1].
    + cbn. rewrite app_nil_r. by destruct (String.eqb (status result) "success").
    + destruct e; cbn; by rewrite app_nil_r.
  - done.
  - by destruct e.
Qed.

Lemma error_response_code (e : exn) :
  (error_response e).2 = 404 \/ (error_response e).2 = 500.
Proof. destruct e; cbn; auto. Qed.

Lemma error_response_not_result (e : exn) (result : ReplicationResult) :
  (error_response e).1 <> ResultBody result.
Proof. by destruct e. Qed.

(** X12. The route answers every request: it never raises, and its status
    code is 200, 400, 404 or 500.  The code is 200 exactly when the body is
    a result of [replicate], whichever of the two: a skipped replication
    and a successful one are both answered with 200. *)
Theorem endpoint_always_answers (request : Request) (s : E) :
  exists (body : ResponseBody) (code : Z),
    outcome_of (replicate_endpoint MAX_RETRIES GCS_BUCKET_NAME replicate_untyped
                  request s) = Return (body, code) /\
    (code = 200 \/ code = 400 \/ code = 404 \/ code = 500) /\
    (code = 200 <-> exists result, body = ResultBody result).
Proof.
  assert (Herr : forall e (s1 : E) (t1 : list event),
             exists body code,
               outcome_of (Return (error_response e), s1, t1) = Return (body, code) /\
               (code = 200 \/ code = 400 \/ code = 404 \/ code = 500) /\
               (code = 200 <-> exists result, body = ResultBody result)).
  { intros e s1 t1. exists (error_response e).1, (error_response e).2.
    split; [by destruct (error_response e) |].
    pose proof (error_response_code e) as Hc. split; [tauto |]. split.
    - intros Heq. rewrite Heq in Hc. by destruct Hc.
    - intros [result Hr]. by apply error_response_not_result in Hr. }
  assert (H400 : forall msg,
             exists body code,
               outcome_of (Return (ErrorBody msg, 400), s, @nil event)
               = Return (body, code) /\
               (code = 200 \/ code = 400 \/ code = 404 \/ code = 500) /\
               (code = 200 <-> exists result, body = ResultBody result)).
  { intros msg. exists (ErrorBody msg), 400. split; [done |]. split; [tauto |].
    split; [done | by intros [result ?]]. }
  rewrite replicate_endpoint_run.
  destruct (negb (is_json request)); [apply H400 |].
  destruct (get_json request) as [[fields|type_name]|e]; [| apply Herr ..].
  cbn zeta. destruct (_ || _); [apply H400 |].
  destruct (service_replicate _ _ _ _ _ s) as [[[result|e] s1] t1];
    [| apply Herr].
  exists (ResultBody result), 200. split; [done |]. split; [tauto |].
  split; [by eauto | done].
Qed.

(** X13. A request that is not JSON, and a JSON object in which
    [s3_bucket] or [s3_key] is missing, [null], the empty string or another
    falsy value, is answered with 400 before anything else happens: no
    remote call is made and the state is untouched. *)
Theorem endpoint_rejects_before_any_call (request : Request) (s : E) :
  (is_json request = false ->
   replicate_endpoint MAX_RETRIES GCS_BUCKET_NAME replicate_untyped request s
   = (Return (ErrorBody "Content-Type must be application/json", 400), s, [])) /\
  (forall fields,
      is_json request = true ->
      get_json request = Return (JsonObject fields) ->
      truthy (default PyNone (fields !! "s3_bucket")) = false \/
      truthy (default PyNone (fields !! "s3_key")) = false ->
      replicate_endpoint MAX_RETRIES GCS_BUCKET_NAME replicate_untyped request s
      = (Return (ErrorBody "Missing required fields: s3_bucket and s3_key", 400),
         s, [])).
Proof.
  split.
  - intros Hjson. by rewrite replicate_endpoint_run, Hjson.
  - intros fields Hjson Hget Hfalsy.
    rewrite replicate_endpoint_run, Hjson, Hget. cbn zeta.
    by destruct Hfalsy as [-> | ->]; rewrite ?orb_true_r.
Qed.

(** X14. For a JSON object with non-empty strings for [s3_bucket] and
    [s3_key] the route is [replicate] with its outcome turned into a
    response: the result with 200 if it returned, the message with 404 if
    it raised [ValueError], and ["Internal server error"] with the message
    and 500 for any other exception.  The route adds no call of its own. *)
Theorem endpoint_reflects_replicate (request : Request) (s : E)
    (fields : gmap string pyvalue) (bucket key : string) :
  is_json request = true ->
  get_json request = Return (JsonObject fields) ->
  fields !! "s3_bucket" = Some (PyStr bucket) -> bucket <> "" ->
  fields !! "s3_key" = Some (PyStr key) -> key <> "" ->
  replicate_endpoint MAX_RETRIES GCS_BUCKET_NAME replicate_untyped request s
  = match replicate MAX_RETRIES GCS_BUCKET_NAME bucket key s with
    | (Return result, s1, t1) => (Return (ResultBody result, 200), s1, t1)
    | (Raise (ValueError message), s1, t1) =>
        (Return (ErrorBody message, 404), s1, t1)
    | (Raise e, s1, t1) =>
        (Return (ErrorMessageBody "Internal server error" (str e), 500), s1, t1)
    end.
Proof.
  intros Hjson Hget Hb Hbne Hk Hkne.
  rewrite replicate_endpoint_run, Hjson, Hget, Hb, Hk. cbn.
  apply String.eqb_neq in Hbne, Hkne. rewrite Hbne, Hkne. cbn.
  destruct (replicate MAX_RETRIES GCS_BUCKET_NAME bucket key s)
    as [[[result|e] s1] t1]; [done |].
  by destruct e.
Qed.

(** X15. A body that is valid JSON but not an object (a list, a string, a
    number, [null]) is answered with 500, not 400: the [AttributeError] of
    [data.get] ends in the general handler.  So does an exception of
    [get_json] itself, unless it is a [ValueError], which is answered with
    404.  No remote call is made. *)
Theorem endpoint_non_object_is_500 (request : Request) (s : E) :
  is_json request = true ->
  (forall type_name,
      get_json request = Return (JsonOther type_name) ->
      replicate_endpoint MAX_RETRIES GCS_BUCKET_NAME replicate_untyped request s
      = (Return (ErrorMessageBody "Internal server error"
                   ("'" +:+ type_name +:+ "' object has no attribute 'get'"), 500),
         s, [])) /\
  (forall e,
      get_json request = Raise e ->
      replicate_endpoint MAX_RETRIES GCS_BUCKET_NAME replicate_untyped request s
      = (Return (error_response e), s, [])).
Proof.
  intros Hjson. split.
  - intros type_name Hget. by rewrite replicate_endpoint_run, Hjson, Hget.
  - intros e Hget. by rewrite replicate_endpoint_run, Hjson, Hget.
Qed.

(** X16. A request for a source object the store reports as missing is
    answered with 404 and the not-found message, after the one
    [head_object] call (at least one attempt being configured). *)
Theorem endpoint_missing_source_is_404 (request : Request) (s s1 : E)
    (fields : gmap string pyvalue) (bucket key msg : string) :
  1 <= MAX_RETRIES ->
  is_json request = true ->
  get_json request = Return (JsonObject fields) ->
  fields !! "s3_bucket" = Some (PyStr bucket) -> bucket <> "" ->
  fields !! "s3_key" = Some (PyStr key) -> key <> "" ->
  head_object bucket key s = (Raise (ClientError "404" msg), s1) ->
  replicate_endpoint MAX_RETRIES GCS_BUCKET_NAME replicate_untyped request s
  = (Return (ErrorBody ("S3 object not found: s3://" +:+ bucket +:+ "/" +:+ key),
             404),
     s1, [Attempt 0; Call (HeadObject bucket key)]).
Proof.
  intros Hmax Hjson Hget Hb Hbne Hk Hkne Hhead.
  rewrite replicate_endpoint_run, Hjson, Hget, Hb, Hk. cbn.
  apply String.eqb_neq in Hbne, Hkne. rewrite Hbne, Hkne. cbn.
  rewrite replicate_run. cbn zeta. unfold _retry_with_backoff, range.
  destruct (Z.to_nat MAX_RETRIES) as [|m] eqn:Hm; [lia |].
  change (seq 0 (S m)) with (0%nat :: seq 1 m). rewrite fmap_cons.
  rewrite (retry_loop_gives_up MAX_RETRIES _ _ _ s
             (FileNotFoundError
                ("S3 object not found: s3://" +:+ bucket +:+ "/" +:+ key))
             s1 [HeadObject bucket key]); [done | | done].
  rewrite get_s3_metadata_run, Hhead. reflexivity.
Qed.

(** X17. With a maximum retry count of zero or less the service answers
    every well-formed request with 500 and the message of the [TypeError],
    without a single remote call. *)
Theorem endpoint_without_attempts_is_500 (request : Request) (s : E)
    (fields : gmap string pyvalue) (bucket key : string) :
  MAX_RETRIES <= 0 ->
  is_json request = true ->
  get_json request = Return (JsonObject fields) ->
  fields !! "s3_bucket" = Some (PyStr bucket) -> bucket <> "" ->
  fields !! "s3_key" = Some (PyStr key) -> key <> "" ->
  replicate_endpoint MAX_RETRIES GCS_BUCKET_NAME replicate_untyped request s
  = (Return (ErrorMessageBody "Internal server error"
               "'NoneType' object is not subscriptable", 500),
     s, []).
Proof.
  intros Hmax Hjson Hget Hb Hbne Hk Hkne.
  rewrite replicate_endpoint_run, Hjson, Hget, Hb, Hk. cbn.
  apply String.eqb_neq in Hbne, Hkne. rewrite Hbne, Hkne. cbn.
  rewrite replicate_run. cbn zeta. unfold _retry_with_backoff, range.
  replace (Z.to_nat MAX_RETRIES) with 0%nat by lia. reflexivity.
Qed.

End RoutesMore.

(** ** Construction and start *)

Section StartupMore.

Context {E S3 GCS : Type} `{Factories E S3 GCS}.
Variable AWS_REGION : string.
Variable AWS_ACCESS_KEY_ID AWS_SECRET_ACCESS_KEY : option string.
Variable GCS_BUCKET_NAME : option string.

Lemma init_run (s : E) :
  __init__ AWS_REGION AWS_ACCESS_KEY_ID AWS_SECRET_ACCESS_KEY GCS_BUCKET_NAME s
  = let made := Boto3Client AWS_REGION AWS_ACCESS_KEY_ID AWS_SECRET_ACCESS_KEY in
    match boto3_client AWS_REGION AWS_ACCESS_KEY_ID AWS_SECRET_ACCESS_KEY s with
    | (Raise e, s1) => (Raise e, s1, [made])
    | (Return client, s1) =>
        match storage_Client s1 with
        | (Raise e, s2) => (Raise e, s2, [made; StorageClient])
        | (Return gcs, s2) =>
            match GCS_BUCKET_NAME with
            | Some name =>
                if String.eqb name "" then
                  (Raise (ValueError "GCS_BUCKET_NAME environment variable not set"),
                   s2, [made; StorageClient])
                else
                  (Return {| s3_client := Some client; gcs_client := Some gcs;
                             gcs_bucket := Some (gcs, name) |},
                   s2, [made; StorageClient])
            | None =>
                (Raise (ValueError "GCS_BUCKET_NAME environment variable not set"),
                 s2, [made; StorageClient])
            end
        end
    end.
Proof.
  unfold __init__, _initialize_clients, try_except, bind, construct, ret, raise.
  destruct (boto3_client _ _ _ s) as [[client|e] s1]; [| done].
  destruct (storage_Client s1) as [[gcs|e] s2]; [| done].
  destruct GCS_BUCKET_NAME as [name|]; [| done].
  by destruct (String.eqb name "").
Qed.


(** X19. Run as a script, the module never reaches the [exit(1)] of its
    main block: with [GCS_BUCKET_NAME] unset or empty the construction of
    the service at module level has already raised.  When the script gets
    to [app.run], the name is set, the host is [0.0.0.0], and the port is
    the one read from [PORT]. *)
Theorem script_never_exits (PORT : outcome Z) (DEBUG : bool) (s : E) :
  let r := script AWS_REGION AWS_ACCESS_KEY_ID AWS_SECRET_ACCESS_KEY
             GCS_BUCKET_NAME PORT DEBUG s in
  (forall code, outcome_of r <> Return (Exit code)) /\
  (env_unset GCS_BUCKET_NAME = true -> exists e, outcome_of r = Raise e) /\
  (forall host port debug,
      outcome_of r = Return (Run host port debug) ->
      env_unset GCS_BUCKET_NAME = false /\
      host = "0.0.0.0" /\ PORT = Return port /\ debug = DEBUG).
Proof.
  cbn zeta. unfold script, bind. rewrite init_run. cbn zeta.
  destruct (boto3_client _ _ _ s) as [[client|e] s1];
    [| by (repeat split; eauto)].
  destruct (storage_Client s1) as [[gcs|e] s2];
    [| by (repeat split; eauto)].
  destruct GCS_BUCKET_NAME as [name|]; [| by (repeat split; eauto)].
  cbn [env_unset].
  destruct (String.eqb name ""); [by (repeat split; eauto) |].
  destruct PORT as [port|e]; cbn; (split; [done |]); (split; [done |]).
  - by intros host port' debug [= <- <- <-].
  - done.
Qed.

End StartupMore.

(** ** Runs of the further properties *)

(** The source fails once with 503 and then answers: two attempts, one
    wait of 1. *)
Lemma retry_recovers_witness :
  (1 < Z.to_nat 3)%nat /\
  outcome_of (_get_s3_metadata "raw-logs" "2024/01/01.log" Http.flaky_once)
  = Raise Outage.unavailable /\
  outcome_of (_retry_with_backoff 3 (_get_s3_metadata "raw-logs" "2024/01/01.log")
                Http.flaky_once)
  = Return (Some Sim.raw_logs_metadata) /\
  attempts_made
    (trace_of (_retry_with_backoff 3 (_get_s3_metadata "raw-logs" "2024/01/01.log")
                 Http.flaky_once)) = 2%nat /\
  sleeps
    (trace_of (_retry_with_backoff 3 (_get_s3_metadata "raw-logs" "2024/01/01.log")
                 Http.flaky_once)) = [1].
Proof.
  assert (Hk : (1 < Z.to_nat 3)%nat) by (cbn; lia).
  assert (Hfirst :
            outcome_of (_get_s3_metadata "raw-logs" "2024/01/01.log" Http.flaky_once)
            = Raise Outage.unavailable).
  { vm_compute. reflexivity. }
  split; [exact Hk |]. split; [exact Hfirst |].
  destruct (retry_recovers 3 (_get_s3_metadata "raw-logs" "2024/01/01.log")
              Http.flaky_once 1 Sim.raw_logs_metadata Hk)
    as (Hr & _ & Hn & Hsl & _).
  - intros j Hj. exists Outage.unavailable.
    destruct j as [|j]; [| lia]. split; [exact Hfirst | reflexivity].
  - vm_compute. reflexivity.
  - split; [exact Hr |]. split; [exact Hn | exact Hsl].
Defined.

(** An inspection that returns at once: what the wrapper returns is what
    that one invocation returned. *)
Lemma retry_returns_last_invocation_witness :
  _retry_with_backoff 3 (_get_s3_metadata "raw-logs" "2024/01/01.log") Sim.raw_logs
  = (Return (Some Sim.raw_logs_metadata), Sim.raw_logs,
     [Attempt 0; Call (HeadObject "raw-logs" "2024/01/01.log")]) /\
  exists s0 t0 pre,
    _get_s3_metadata "raw-logs" "2024/01/01.log" s0
    = (Return Sim.raw_logs_metadata, Sim.raw_logs, t0) /\
    [Attempt 0; Call (HeadObject "raw-logs" "2024/01/01.log")]
    = pre ++ (Call <$> t0).
Proof.
  assert (Hrun :
            _retry_with_backoff 3 (_get_s3_metadata "raw-logs" "2024/01/01.log")
              Sim.raw_logs
            = (Return (Some Sim.raw_logs_metadata), Sim.raw_logs,
               [Attempt 0; Call (HeadObject "raw-logs" "2024/01/01.log")])).
  { vm_compute. reflexivity. }
  split; [exact Hrun |].
  exact (proj2 (retry_returns_last_invocation 3 _ _ _ _ _ Hrun)
           Sim.raw_logs_metadata eq_refl).
Defined.

(** A negative maximum. *)
Lemma replicate_without_attempts_fails_witness :
  -1 <= 0 /\
  replicate (-1) "dest" "raw-logs" "2024/01/01.log" Sim.raw_logs
  = (Raise (TypeError "'NoneType' object is not subscriptable"), Sim.raw_logs, []).
Proof.
  assert (Hmax : -1 <= 0) by lia.
  split; [exact Hmax |].
  exact (replicate_without_attempts_fails (-1) "dest" "raw-logs" "2024/01/01.log"
           Sim.raw_logs Hmax).
Defined.

(** The empty destination of the example: the object is copied. *)
Lemma replicate_copies_unless_match_witness :
  _retry_with_backoff 3 (_get_s3_metadata "raw-logs" "2024/01/01.log") Sim.raw_logs
  = (Return (Some Sim.raw_logs_metadata), Sim.raw_logs,
     [Attempt 0; Call (HeadObject "raw-logs" "2024/01/01.log")]) /\
  outcome_of (_check_gcs_exists (gcs_key_of "raw-logs" "2024/01/01.log")
                (etag Sim.raw_logs_metadata) Sim.raw_logs) = Return false /\
  outcome_of (replicate 3 "dest" "raw-logs" "2024/01/01.log" Sim.raw_logs)
  <> Return (Skipped "File already exists with same content"
               "gs://dest/raw-logs/2024/01/01.log").
Proof.
  assert (Hinspect :
            _retry_with_backoff 3 (_get_s3_metadata "raw-logs" "2024/01/01.log")
              Sim.raw_logs
            = (Return (Some Sim.raw_logs_metadata), Sim.raw_logs,
               [Attempt 0; Call (HeadObject "raw-logs" "2024/01/01.log")])).
  { vm_compute. reflexivity. }
  assert (Hcheck :
            outcome_of (_check_gcs_exists (gcs_key_of "raw-logs" "2024/01/01.log")
                          (etag Sim.raw_logs_metadata) Sim.raw_logs) = Return false).
  { vm_compute. reflexivity. }
  split; [exact Hinspect |]. split; [exact Hcheck |].
  exact (proj1 (replicate_copies_unless_match 3 "dest" _ _ _ _ _ _
                  Hinspect Hcheck) _ _).
Defined.

(** The first replication of the example. *)
Lemma replicate_success_means_uploaded_witness :
  replicate 3 "dest" "raw-logs" "2024/01/01.log" Sim.raw_logs
  = (Return (Succeeded "File replicated successfully"
               "s3://raw-logs/2024/01/01.log"
               "gs://dest/raw-logs/2024/01/01.log" 4096),
     Sim.replicated_once,
     trace_of (replicate 3 "dest" "raw-logs" "2024/01/01.log" Sim.raw_logs)) /\
  "gs://dest/raw-logs/2024/01/01.log"
  = "gs://" +:+ "dest" +:+ "/" +:+ gcs_key_of "raw-logs" "2024/01/01.log".
Proof.
  assert (Hrun :
            replicate 3 "dest" "raw-logs" "2024/01/01.log" Sim.raw_logs
            = (Return (Succeeded "File replicated successfully"
                         "s3://raw-logs/2024/01/01.log"
                         "gs://dest/raw-logs/2024/01/01.log" 4096),
               Sim.replicated_once,
               trace_of (replicate 3 "dest" "raw-logs" "2024/01/01.log"
                           Sim.raw_logs))).
  { vm_compute. reflexivity. }
  split; [exact Hrun |].
  exact (proj1 (proj2 (proj2 (replicate_success_means_uploaded 3 "dest" _ _ _ _ _
                                _ _ _ _ Hrun)))).
Defined.

(** The quoted tag of the example's object. *)
Lemma inspection_normalizes_tag_witness :
  head_object "raw-logs" "2024/01/01.log" Sim.raw_logs
  = (Return {| ETag := Some (Sim.quoted "abc123"); ContentLength := Some 4096;
               LastModified := Some "2024-01-01 00:00:00" |}, Sim.raw_logs) /\
  exists s3_metadata,
    _get_s3_metadata "raw-logs" "2024/01/01.log" Sim.raw_logs
    = (Return s3_metadata, Sim.raw_logs, [HeadObject "raw-logs" "2024/01/01.log"]) /\
    etag s3_metadata = "abc123".
Proof.
  assert (Hhead :
            head_object "raw-logs" "2024/01/01.log" Sim.raw_logs
            = (Return {| ETag := Some (Sim.quoted "abc123");
                         ContentLength := Some 4096;
                         LastModified := Some "2024-01-01 00:00:00" |},
               Sim.raw_logs)).
  { vm_compute. reflexivity. }
  split; [exact Hhead |].
  destruct (inspection_normalizes_tag _ _ _ _ _ Hhead)
    as (s3_metadata & Hrun & _ & _ & Htag & _).
  exists s3_metadata. split; [exact Hrun |].
  exact (proj1 (Htag "abc123" eq_refl eq_refl) eq_refl).
Defined.

(** A request without [s3_key]. *)
Lemma endpoint_rejects_before_any_call_witness :
  is_json Http.no_key_request = true /\
  truthy (default PyNone
            (({[ "s3_bucket" := PyStr "raw-logs" ]} : gmap string pyvalue)
               !! "s3_key")) = false /\
  replicate_endpoint 3 "dest" Http.invalid_parameter Http.no_key_request Sim.raw_logs
  = (Return (ErrorBody "Missing required fields: s3_bucket and s3_key", 400),
     Sim.raw_logs, []).
Proof.
  assert (Hjson : is_json Http.no_key_request = true) by reflexivity.
  assert (Hkey : truthy (default PyNone
                           (({[ "s3_bucket" := PyStr "raw-logs" ]}
                             : gmap string pyvalue) !! "s3_key")) = false).
  { vm_compute. reflexivity. }
  split; [exact Hjson |]. split; [exact Hkey |].
  exact (proj2 (endpoint_rejects_before_any_call 3 "dest" Http.invalid_parameter
                  Http.no_key_request Sim.raw_logs)
           _ Hjson eq_refl (or_intror Hkey)).
Defined.

(** The request of the example, on the stores of the example. *)
Lemma endpoint_reflects_replicate_witness :
  "raw-logs" <> "" /\ "2024/01/01.log" <> "" /\
  outcome_of (replicate_endpoint 3 "dest" Http.invalid_parameter
                Http.raw_logs_request Sim.raw_logs)
  = Return (ResultBody (Succeeded "File replicated successfully"
                          "s3://raw-logs/2024/01/01.log"
                          "gs://dest/raw-logs/2024/01/01.log" 4096), 200).
Proof.
  assert (Hb : "raw-logs" <> "") by discriminate.
  assert (Hk : "2024/01/01.log" <> "") by discriminate.
  split; [exact Hb |]. split; [exact Hk |].
  rewrite (endpoint_reflects_replicate 3 "dest" Http.invalid_parameter
             Http.raw_logs_request Sim.raw_logs _ "raw-logs" "2024/01/01.log"
             eq_refl eq_refl eq_refl Hb eq_refl Hk).
  vm_compute. reflexivity.
Defined.

(** A JSON list as the body. *)
Lemma endpoint_non_object_is_500_witness :
  is_json Http.list_request = true /\
  replicate_endpoint 3 "dest" Http.invalid_parameter Http.list_request Sim.raw_logs
  = (Return (ErrorMessageBody "Internal server error"
               ("'" +:+ "list" +:+ "' object has no attribute 'get'"), 500),
     Sim.raw_logs, []).
Proof.
  assert (Hjson : is_json Http.list_request = true) by reflexivity.
  split; [exact Hjson |].
  exact (proj1 (endpoint_non_object_is_500 3 "dest" Http.invalid_parameter
                  Http.list_request Sim.raw_logs Hjson) "list" eq_refl).
Defined.

(** A request for the key the source does not hold. *)
Lemma endpoint_missing_source_is_404_witness :
  1 <= 3 /\
  head_object "raw-logs" "missing.log" Sim.raw_logs
  = (Raise (ClientError "404" "Not Found"), Sim.raw_logs) /\
  replicate_endpoint 3 "dest" Http.invalid_parameter Http.missing_request Sim.raw_logs
  = (Return (ErrorBody ("S3 object not found: s3://" +:+ "raw-logs" +:+ "/"
                          +:+ "missing.log"), 404),
     Sim.raw_logs, [Attempt 0; Call (HeadObject "raw-logs" "missing.log")]).
Proof.
  assert (Hmax : 1 <= 3) by lia.
  assert (Hhead : head_object "raw-logs" "missing.log" Sim.raw_logs
                  = (Raise (ClientError "404" "Not Found"), Sim.raw_logs)).
  { vm_compute. reflexivity. }
  assert (Hb : "raw-logs" <> "") by discriminate.
  assert (Hk : "missing.log" <> "") by discriminate.
  split; [exact Hmax |]. split; [exact Hhead |].
  exact (endpoint_missing_source_is_404 3 "dest" Http.invalid_parameter
           Http.missing_request Sim.raw_logs Sim.raw_logs _ "raw-logs"
           "missing.log" "Not Found" Hmax eq_refl eq_refl eq_refl Hb eq_refl Hk
           Hhead).
Defined.

(** The request of the example with no attempt configured. *)
Lemma endpoint_without_attempts_is_500_witness :
  0 <= 0 /\
  replicate_endpoint 0 "dest" Http.invalid_parameter Http.raw_logs_request
    Sim.raw_logs
  = (Return (ErrorMessageBody "Internal server error"
               "'NoneType' object is not subscriptable", 500),
     Sim.raw_logs, []).
Proof.
  assert (Hmax : 0 <= 0) by lia.
  assert (Hb : "raw-logs" <> "") by discriminate.
  assert (Hk : "2024/01/01.log" <> "") by discriminate.
  split; [exact Hmax |].
  exact (endpoint_without_attempts_is_500 0 "dest" Http.invalid_parameter
           Http.raw_logs_request Sim.raw_logs _ "raw-logs" "2024/01/01.log"
           Hmax eq_refl eq_refl eq_refl Hb eq_refl Hk).
Defined.


(** The script without a bucket name: it ends with an exception. *)
Lemma script_never_exits_witness :
  env_unset (Some "") = true /\
  exists e,
    outcome_of (script (E := nat) (S3 := nat) (GCS := nat)
                  "us-east-1" None None (Some "") (Return 5000) false 0%nat)
    = Raise e.
Proof.
  assert (Hunset : env_unset (Some "") = true) by reflexivity.
  split; [exact Hunset |].
  exact (proj1 (proj2 (script_never_exits (E := nat) (S3 := nat) (GCS := nat)
                         "us-east-1" None None (Some "") (Return 5000) false
                         0%nat)) Hunset).
Defined.

(** The second replication of the example was skipped: the destination
    held the tag. *)
Lemma skipped_only_on_match_witness :
  outcome_of (replicate 3 "dest" "raw-logs" "2024/01/01.log" Sim.replicated_once)
  = Return (Skipped "File already exists with same content"
              "gs://dest/raw-logs/2024/01/01.log") /\
  exists s3_metadata (s1 s2 : Sim.world) m s3,
    blob_exists (gcs_key_of "raw-logs" "2024/01/01.log") s1 = (Return true, s2) /\
    blob_reload (gcs_key_of "raw-logs" "2024/01/01.log") s2 = (Return (Some m), s3) /\
    m !! "s3_etag" = Some (etag s3_metadata).
Proof.
  assert (Hskip :
            outcome_of (replicate 3 "dest" "raw-logs" "2024/01/01.log"
                          Sim.replicated_once)
            = Return (Skipped "File already exists with same content"
                        "gs://dest/raw-logs/2024/01/01.log")).
  { vm_compute. reflexivity. }
  split; [exact Hskip |].
  destruct (skipped_only_on_match 3 "dest" _ _ _ _ _ Hskip)
    as (s3_metadata & s1 & t1 & s2 & m & s3 & _ & Hex & Hre & Hm).
  exists s3_metadata, s1, s2, m, s3.
  split; [exact Hex |]. split; [exact Hre | exact Hm].
Defined.

